(** * Presence registry and notification mailbox of the Dioptimize worker

    A shallow embedding of [src/index.js]: the two process-wide [Map]s
    ([activeUsers], [pendingNotifications]), the lazy sweep
    [cleanupInactiveUsers] and the request handler [fetch], followed by the
    properties the specification states about them.

    Conventions of the embedding.
    - A JavaScript string is the list of its UTF-16 code units.
    - A JavaScript [Map] is the list of its entries in insertion order, which
      is the order [entries()] and [values()] iterate in.
    - [Date.now()] is an input: [fetch] receives the reading made by the
      sweep ([now0]) and the reading made by the route handler after the
      request body has been awaited ([now1]).  The handler is synchronous
      from there on, and the worker runtime only advances its clock across
      I/O, so all readings of one handler agree.
    - One request runs to completion before the next one starts. *)

From Stdlib Require Import ZArith NArith List String Ascii Bool Lia.
Import ListNotations.
Open Scope Z_scope.

(** ** JavaScript values *)

Definition jsstring := list N.

(** The code units of an ASCII literal of the source. *)
Definition lit (s : string) : jsstring :=
  List.map N_of_ascii (list_ascii_of_string s).

(** ECMAScript [WhiteSpace] and [LineTerminator] code points, the ones
    [String.prototype.trim] strips. *)
Definition isWhiteSpace (c : N) : bool :=
  let c := Z.of_N c in
  ((9 <=? c) && (c <=? 13))
  || (c =? 32) || (c =? 160) || (c =? 5760)
  || ((8192 <=? c) && (c <=? 8202))
  || (c =? 8232) || (c =? 8233) || (c =? 8239) || (c =? 8287)
  || (c =? 12288) || (c =? 65279).

Fixpoint trimStart (s : jsstring) : jsstring :=
  match s with
  | [] => []
  | c :: r => if isWhiteSpace c then trimStart r else s
  end.

Definition trimEnd (s : jsstring) : jsstring := rev (trimStart (rev s)).

Definition trim (s : jsstring) : jsstring := trimEnd (trimStart s).

(** What the [username] field of a parsed request body can hold.  Numbers are
    restricted to integers; an object or array carries the identity the
    runtime gave it when the body was parsed. *)
Inductive jsval : Type :=
| JUndefined
| JNull
| JBoolean (b : bool)
| JNumber (z : Z)
| JString (s : jsstring)
| JObject (id : nat).

(** [!v] is [negb (truthy v)]. *)
Definition truthy (v : jsval) : bool :=
  match v with
  | JUndefined | JNull => false
  | JBoolean b => b
  | JNumber z => negb (z =? 0)
  | JString s => match s with [] => false | _ => true end
  | JObject _ => true
  end.

Definition jsval_eq_dec (a b : jsval) : {a = b} + {a <> b}.
Proof.
  decide equality.
  - apply Bool.bool_dec.
  - apply Z.eq_dec.
  - apply (list_eq_dec N.eq_dec).
  - apply Nat.eq_dec.
Defined.

(** Key comparison of [Map]. *)
Definition SameValueZero (a b : jsval) : bool :=
  if jsval_eq_dec a b then true else false.

(** ** [Map] *)

Section JSMap.
Context {V : Type}.

Definition Map : Type := list (jsval * V).

Definition Map_new : Map := [].

Fixpoint Map_get (m : Map) (k : jsval) : option V :=
  match m with
  | [] => None
  | (k', v) :: r => if SameValueZero k' k then Some v else Map_get r k
  end.

Definition Map_has (m : Map) (k : jsval) : bool :=
  match Map_get m k with Some _ => true | None => false end.

(** [set] keeps the position of an existing key and appends a new one. *)
Fixpoint Map_set (m : Map) (k : jsval) (v : V) : Map :=
  match m with
  | [] => [(k, v)]
  | (k', v') :: r =>
      if SameValueZero k' k then (k', v) :: r else (k', v') :: Map_set r k v
  end.

(** In-place mutation of the object stored under [k]
    ([m.get(k).field = ...]). *)
Fixpoint Map_mutate (m : Map) (k : jsval) (f : V -> V) : Map :=
  match m with
  | [] => []
  | (k', v') :: r =>
      if SameValueZero k' k then (k', f v') :: r
      else (k', v') :: Map_mutate r k f
  end.

Definition Map_delete (m : Map) (k : jsval) : Map :=
  filter (fun e => negb (SameValueZero (fst e) k)) m.

Definition Map_entries (m : Map) : list (jsval * V) := m.

Definition Map_values (m : Map) : list V := List.map snd m.

Definition Map_keys (m : Map) : list jsval := List.map fst m.

Definition Map_size (m : Map) : nat := List.length m.

(** A [Map] holds each key once. *)
Definition Map_wf (m : Map) : Prop := NoDup (Map_keys m).

(** The number of entries stored under a key. *)
Definition occurrences (m : Map) (k : jsval) : nat :=
  List.length (filter (fun e => SameValueZero (fst e) k) m).
End JSMap.

Arguments Map V : clear implicits.

(** ** State *)

Definition ADMIN_USERNAME : jsstring := lit "admin0707".

(** The object stored in [activeUsers]. *)
Record User : Type := mkUser
  { username : jsval; lastSeen : Z; loginTime : Z }.

(** The object stored in [pendingNotifications]. *)
Record Notification : Type := mkNotification
  { type : jsstring; timestamp : Z }.

Record State : Type := mkState
  { activeUsers : Map User; pendingNotifications : Map Notification }.

Definition initial : State :=
  {| activeUsers := Map_new; pendingNotifications := Map_new |}.

(** ** Requests and responses *)

(** The request body as the handlers consume it: empty text, text on which
    [JSON.parse] or the destructuring [const { username } = ...] throws, or a
    value whose [username] property is the given one ([JUndefined] when it
    has none). *)
Inductive Body : Type :=
| Empty
| Malformed
| Fields (username : jsval).

Record Request : Type := mkRequest
  { method : string; pathname : string; body : Body }.

(** [await request.json()] followed by the destructuring; [None] is a
    thrown exception. *)
Definition request_json (request : Request) : option jsval :=
  match body request with
  | Fields u => Some u
  | Empty | Malformed => None
  end.

(** The object literals passed to [jsonResponse]. *)
Inductive Json : Type :=
| LoginOk (isAdmin : bool) (username : jsstring)
| Success
| Failure (error : string)
| UserList (users : list User) (count : nat)
| Notified (notified : nat)
| HasNotification (notification : Notification)
| NoNotification
| Health (activeUsers : nat)
| Error (error : string).

Record Response : Type := mkResponse
  { payload : option Json; status : Z }.

Definition handleOptions : Response :=
  {| payload := None; status := 200 |}.

Definition jsonResponse (data : Json) (status : Z) : Response :=
  {| payload := Some data; status := status |}.

(** ** The sweep (lines 37-46) *)

Definition timeout : Z := 10000.

(** The loop visits the entries in order and deletes the visited one when
    it has expired.  Deleting the entry under the cursor does not disturb the
    iteration, so the loop runs over the entries the map held at its start. *)
Definition cleanupInactiveUsers (now : Z) (st : State) : State :=
  {| activeUsers :=
       fold_left
         (fun (m : Map User) (e : jsval * User) =>
            let (username, data) := e in
            if now - lastSeen data >? timeout then Map_delete m username
            else m)
         (Map_entries (activeUsers st)) (activeUsers st);
     pendingNotifications := pendingNotifications st |}.

(** ** The operations of the routes

    The source inlines them in [fetch]; each is named here after the
    operation of the specification it implements. *)

(** Lines 76-80: [activeUsers.set(trimmedUsername, {...})]. *)
Definition register (trimmedUsername : jsstring) (now : Z)
    (m : Map User) : Map User :=
  Map_set m (JString trimmedUsername)
    {| username := JString trimmedUsername; lastSeen := now;
       loginTime := now |}.

(** Line 99: [activeUsers.get(username).lastSeen = Date.now()] on the stored
    object. *)
Definition touch (now : Z) (data : User) : User :=
  {| username := data.(username); lastSeen := now;
     loginTime := data.(loginTime) |}.

(** Lines 98-106: the heartbeat's update-or-insert. *)
Definition registerOrTouch (username : jsval) (now : Z)
    (m : Map User) : Map User :=
  if Map_has m username then Map_mutate m username (touch now)
  else
    Map_set m username
      {| username := username; lastSeen := now; loginTime := now |}.

(** Line 119: [activeUsers.delete(username)]. *)
Definition remove (username : jsval) (m : Map User) : Map User :=
  Map_delete m username.

(** Lines 131-135: the copy of every stored record, in iteration order. *)
Definition listActive (m : Map User) : list User :=
  List.map
    (fun user => {| username := user.(username); lastSeen := user.(lastSeen);
                    loginTime := user.(loginTime) |})
    (Map_values m).

Definition isActive (m : Map User) (username : jsval) : bool :=
  Map_has m username.

Definition count (m : Map User) : nat := Map_size m.

(** Lines 153-156: [pendingNotifications.set(username, {...})]. *)
Definition setFor (username : jsval) (now : Z)
    (pn : Map Notification) : Map Notification :=
  Map_set pn username {| type := lit "sound"; timestamp := now |}.

(** Lines 165-172: one [set] per entry of [activeUsers], counting them. *)
Definition broadcastToAllPresent (now : Z) (au : Map User)
    (pn : Map Notification) : Map Notification * nat :=
  fold_left
    (fun (acc : Map Notification * nat) (e : jsval * User) =>
       let (pn, count) := acc in
       (setFor (fst e) now pn, S count))
    (Map_entries au) (pn, 0%nat).

(** Lines 184-190: read, then delete. *)
Definition takeFor (username : jsval)
    (pn : Map Notification) : option Notification * Map Notification :=
  if Map_has pn username then (Map_get pn username, Map_delete pn username)
  else (None, pn).

(** ** The routes (lines 62-199)

    A route returns [None] when it throws, which only [request.json()] and
    the destructuring that follows it can do. *)

Definition isEmpty (s : jsstring) : bool :=
  match s with [] => true | _ => false end.

Definition jsstring_eqb (a b : jsstring) : bool :=
  if list_eq_dec N.eq_dec a b then true else false.

Definition login (now : Z) (request : Request)
    (st : State) : option (Response * State) :=
  match request_json request with
  | None => None
  | Some (JString s) =>
      if negb (truthy (JString s)) || isEmpty (trim s) then
        Some (jsonResponse (Failure "Invalid username") 400, st)
      else
        let trimmedUsername := trim s in
        let isAdmin := jsstring_eqb trimmedUsername ADMIN_USERNAME in
        let st' :=
          if negb isAdmin then
            {| activeUsers := register trimmedUsername now (activeUsers st);
               pendingNotifications := pendingNotifications st |}
          else st in
        Some (jsonResponse (LoginOk isAdmin trimmedUsername) 200, st')
  | Some _ =>
      (* [!username || typeof username !== 'string'] *)
      Some (jsonResponse (Failure "Invalid username") 400, st)
  end.

Definition heartbeat (now : Z) (request : Request)
    (st : State) : option (Response * State) :=
  match request_json request with
  | None => None
  | Some username =>
      if negb (truthy username) then
        Some (jsonResponse (Failure "Username required") 400, st)
      else
        Some (jsonResponse Success 200,
              {| activeUsers := registerOrTouch username now (activeUsers st);
                 pendingNotifications := pendingNotifications st |})
  end.

(** The inner [try] swallows a body that does not parse. *)
Definition logout (request : Request) (st : State) : Response * State :=
  let st' :=
    match body request with
    | Empty | Malformed => st
    | Fields username =>
        if truthy username then
          {| activeUsers := remove username (activeUsers st);
             pendingNotifications := pendingNotifications st |}
        else st
    end in
  (jsonResponse Success 200, st').

Definition users (st : State) : Response * State :=
  let users := listActive (activeUsers st) in
  (jsonResponse (UserList users (List.length users)) 200, st).

Definition notify (now : Z) (request : Request)
    (st : State) : option (Response * State) :=
  match request_json request with
  | None => None
  | Some username =>
      if negb (truthy username) then
        Some (jsonResponse (Failure "Username required") 400, st)
      else if Map_has (activeUsers st) username then
        Some (jsonResponse Success 200,
              {| activeUsers := activeUsers st;
                 pendingNotifications :=
                   setFor username now (pendingNotifications st) |})
      else Some (jsonResponse (Failure "User not found") 404, st)
  end.

Definition notifyAll (now : Z) (st : State) : Response * State :=
  let (pn, count) :=
    broadcastToAllPresent now (activeUsers st) (pendingNotifications st) in
  (jsonResponse (Notified count) 200,
   {| activeUsers := activeUsers st; pendingNotifications := pn |}).

Definition checkNotification (request : Request)
    (st : State) : option (Response * State) :=
  match request_json request with
  | None => None
  | Some username =>
      if negb (truthy username) then
        Some (jsonResponse (Failure "Username required") 400, st)
      else
        let (taken, pn) := takeFor username (pendingNotifications st) in
        let st' :=
          {| activeUsers := activeUsers st; pendingNotifications := pn |} in
        match taken with
        | Some notification =>
            Some (jsonResponse (HasNotification notification) 200, st')
        | None => Some (jsonResponse NoNotification 200, st')
        end
  end.

Definition health (st : State) : Response * State :=
  (jsonResponse (Health (Map_size (activeUsers st))) 200, st).

(** The chain of [if (path === ... && request.method === ...)]. *)
Definition dispatch (now : Z) (request : Request)
    (st : State) : option (Response * State) :=
  let path := pathname request in
  let POST := (method request =? "POST")%string in
  let GET := (method request =? "GET")%string in
  if (path =? "/login")%string && POST then login now request st
  else if (path =? "/heartbeat")%string && POST then heartbeat now request st
  else if (path =? "/logout")%string && POST then Some (logout request st)
  else if (path =? "/users")%string && GET then Some (users st)
  else if (path =? "/notify")%string && POST then notify now request st
  else if (path =? "/notify-all")%string && POST then Some (notifyAll now st)
  else if (path =? "/check-notification")%string && POST then
    checkNotification request st
  else if (path =? "/health")%string then Some (health st)
  else Some (jsonResponse (Error "Not found") 404, st).

(** [fetch]: the preflight answer, the sweep, then the routes under the
    outer [try]/[catch]. *)
Definition fetch (now0 now1 : Z) (request : Request)
    (st : State) : Response * State :=
  if (method request =? "OPTIONS")%string then (handleOptions, st)
  else
    let st := cleanupInactiveUsers now0 st in
    match dispatch now1 request st with
    | Some r => r
    | None => (jsonResponse (Error "Internal server error") 500, st)
    end.

(** The requests the specification names. *)
Definition POST (path : string) (username : jsval) : Request :=
  {| method := "POST"; pathname := path; body := Fields username |}.

Definition GET (path : string) : Request :=
  {| method := "GET"; pathname := path; body := Empty |}.

(** The states the worker can be in: the fresh one and every one a request
    leads to. *)
Inductive reachable : State -> Prop :=
| reachable_initial : reachable initial
| reachable_fetch now0 now1 request st :
    reachable st -> reachable (snd (fetch now0 now1 request st)).

(** A state whose two maps hold each key once. *)
Definition State_wf (st : State) : Prop :=
  Map_wf (activeUsers st) /\ Map_wf (pendingNotifications st).

(** ** The specification's reading of the sweep

    A record is expired at [now] when [now - lastSeen > TTL]; [sweep] drops
    the expired records and keeps the others in place.  The loop of
    [cleanupInactiveUsers] is compared with it below. *)

Definition TTL : Z := 10000.

Definition expired (now : Z) (data : User) : bool :=
  now - lastSeen data >? TTL.

Definition sweep (now : Z) (m : Map User) : Map User :=
  filter (fun e => negb (expired now (snd e))) m.

(** ** The specification's reading of login validation

    A username is refused when it is missing, not a string, empty or made of
    white space only. *)

Definition blank (v : jsval) : bool :=
  match v with
  | JString s => forallb isWhiteSpace s
  | _ => true
  end.

(** ** Sample data *)

Definition bob : jsval := JString (lit "bob").
Definition carol : jsval := JString (lit "carol").
Definition dave : jsval := JString (lit "dave").

(** Three users last seen 10000, 9999 and 10001 ms before time 15000, and a
    notification waiting for the first. *)
Definition sample : State :=
  {| activeUsers :=
       [ (bob, {| username := bob; lastSeen := 5000; loginTime := 0 |});
         (carol, {| username := carol; lastSeen := 5001; loginTime := 0 |});
         (dave, {| username := dave; lastSeen := 4999; loginTime := 0 |}) ];
     pendingNotifications :=
       [ (bob, {| type := lit "sound"; timestamp := 4000 |}) ] |}.

(** ** Runs of the worker *)




(** ** The route table *)

(** The request reaches one of the eight routes of [fetch]. *)
Definition routed (request : Request) : bool :=
  let path := pathname request in
  let POST := (method request =? "POST")%string in
  let GET := (method request =? "GET")%string in
  ((path =? "/login")%string && POST)
  || ((path =? "/heartbeat")%string && POST)
  || ((path =? "/logout")%string && POST)
  || ((path =? "/users")%string && GET)
  || ((path =? "/notify")%string && POST)
  || ((path =? "/notify-all")%string && POST)
  || ((path =? "/check-notification")%string && POST)
  || (path =? "/health")%string.

(** The request reaches a route that calls [request.json()]. *)
Definition reads_json (request : Request) : bool :=
  let path := pathname request in
  (method request =? "POST")%string
  && ((path =? "/login")%string || (path =? "/heartbeat")%string
      || (path =? "/notify")%string || (path =? "/check-notification")%string).

(** The worker after one heartbeat of [bob], and after a notification for
    him. *)
Definition bob_online : State :=
  snd (fetch 1000 1000 (POST "/heartbeat" bob) initial).

Definition bob_notified : State :=
  snd (fetch 2000 2000 (POST "/notify" bob) bob_online).


(** The parsed username fails the test of the route: [/login] wants a
    string with something else than white space in it, the other routes a
    truthy value. *)
Definition rejected (request : Request) : bool :=
  match request_json request with
  | Some v =>
      if (pathname request =? "/login")%string then blank v
      else negb (truthy v)
  | None => false
  end.

(** * Properties *)

(** ** [Map] *)

Lemma SameValueZero_refl (k : jsval) : SameValueZero k k = true.
Proof. unfold SameValueZero. destruct (jsval_eq_dec k k); congruence. Qed.

Lemma SameValueZero_eq (a b : jsval) : SameValueZero a b = true <-> a = b.
Proof.
  unfold SameValueZero. destruct (jsval_eq_dec a b); split; congruence.
Qed.

Lemma SameValueZero_neq (a b : jsval) : a <> b -> SameValueZero a b = false.
Proof. unfold SameValueZero. destruct (jsval_eq_dec a b); congruence. Qed.

Ltac same_key k' k :=
  let E := fresh "E" in
  destruct (jsval_eq_dec k' k) as [E | E];
  [ subst; rewrite ?SameValueZero_refl in *
  | rewrite ?(SameValueZero_neq _ _ E) in * ].

Section MapFacts.
Context {V : Type}.
Implicit Types (m : Map V) (k : jsval) (v : V).

Lemma Map_get_In m k v : Map_get m k = Some v -> In (k, v) m.
Proof.
  induction m as [| [k' v'] r IH]; simpl; [discriminate |].
  same_key k' k; intros H; [left; congruence | right; auto].
Qed.

Lemma Map_get_None m k : Map_get m k = None <-> ~ In k (Map_keys m).
Proof.
  induction m as [| [k' v'] r IH]; simpl; [tauto |].
  same_key k' k; [split; [discriminate | tauto] |].
  rewrite IH. tauto.
Qed.

Lemma Map_has_In m k : Map_has m k = true <-> In k (Map_keys m).
Proof.
  unfold Map_has. destruct (Map_get m k) eqn:G.
  - split; [intros _ | reflexivity].
    apply Map_get_In in G. apply (in_map fst) in G. exact G.
  - apply Map_get_None in G. split; [discriminate | tauto].
Qed.

Lemma In_Map_get m k v : Map_wf m -> In (k, v) m -> Map_get m k = Some v.
Proof.
  unfold Map_wf. induction m as [| [k' v'] r IH]; simpl; [tauto |].
  intros ND [H | H]; inversion ND as [| ? ? Hn ND']; subst.
  - inversion H; subst. now rewrite SameValueZero_refl.
  - same_key k' k; [| auto].
    exfalso. apply Hn. apply (in_map fst) in H. exact H.
Qed.

Lemma Map_get_set_same m k v : Map_get (Map_set m k v) k = Some v.
Proof.
  induction m as [| [k' v'] r IH]; simpl.
  - now rewrite SameValueZero_refl.
  - same_key k' k; simpl; rewrite ?SameValueZero_refl; auto.
    now rewrite (SameValueZero_neq _ _ E).
Qed.

Lemma Map_get_set_other m k k0 v :
  k0 <> k -> Map_get (Map_set m k v) k0 = Map_get m k0.
Proof.
  intros N. induction m as [| [k' v'] r IH]; simpl.
  - rewrite SameValueZero_neq; congruence.
  - same_key k' k; simpl.
    + rewrite SameValueZero_neq; congruence.
    + now rewrite IH.
Qed.

Lemma Map_get_mutate_same m k (f : V -> V) :
  Map_get (Map_mutate m k f) k = option_map f (Map_get m k).
Proof.
  induction m as [| [k' v'] r IH]; simpl; [reflexivity |].
  same_key k' k; simpl; rewrite ?SameValueZero_refl; auto.
  now rewrite (SameValueZero_neq _ _ E).
Qed.

Lemma Map_get_mutate_other m k k0 (f : V -> V) :
  k0 <> k -> Map_get (Map_mutate m k f) k0 = Map_get m k0.
Proof.
  intros N. induction m as [| [k' v'] r IH]; simpl; [reflexivity |].
  same_key k' k; simpl.
  - rewrite SameValueZero_neq; congruence.
  - now rewrite IH.
Qed.

Lemma Map_get_delete_same m k : Map_get (Map_delete m k) k = None.
Proof.
  unfold Map_delete. induction m as [| [k' v'] r IH]; simpl; [reflexivity |].
  same_key k' k; simpl; auto.
  now rewrite (SameValueZero_neq _ _ E).
Qed.

Lemma Map_get_delete_other m k k0 :
  k0 <> k -> Map_get (Map_delete m k) k0 = Map_get m k0.
Proof.
  intros N. unfold Map_delete.
  induction m as [| [k' v'] r IH]; simpl; [reflexivity |].
  same_key k' k; simpl.
  - rewrite SameValueZero_neq by congruence. exact IH.
  - now rewrite IH.
Qed.

Lemma Map_delete_absent m k : Map_has m k = false -> Map_delete m k = m.
Proof.
  unfold Map_has, Map_delete.
  induction m as [| [k' v'] r IH]; simpl; [reflexivity |].
  same_key k' k; simpl; [discriminate |].
  intros H. now rewrite IH.
Qed.

Lemma Map_keys_set m k v :
  Map_keys (Map_set m k v) =
  if Map_has m k then Map_keys m else Map_keys m ++ [k].
Proof.
  unfold Map_has. induction m as [| [k' v'] r IH]; simpl; [reflexivity |].
  same_key k' k; simpl; [reflexivity |].
  rewrite IH. now destruct (Map_get r k).
Qed.

Lemma Map_keys_mutate m k (f : V -> V) :
  Map_keys (Map_mutate m k f) = Map_keys m.
Proof.
  induction m as [| [k' v'] r IH]; simpl; [reflexivity |].
  same_key k' k; simpl; [reflexivity | now rewrite IH].
Qed.

Lemma Map_wf_new : Map_wf (@Map_new V).
Proof. constructor. Qed.

Lemma Map_wf_set m k v : Map_wf m -> Map_wf (Map_set m k v).
Proof.
  unfold Map_wf. intros ND. rewrite Map_keys_set.
  destruct (Map_has m k) eqn:H; [exact ND |].
  apply NoDup_app; [exact ND | repeat constructor; simpl; tauto |].
  intros x Hx [<- | []].
  apply Map_has_In in Hx. congruence.
Qed.

Lemma Map_wf_mutate m k (f : V -> V) : Map_wf m -> Map_wf (Map_mutate m k f).
Proof. unfold Map_wf. now rewrite Map_keys_mutate. Qed.

Lemma Map_wf_filter m (p : jsval * V -> bool) :
  Map_wf m -> Map_wf (filter p m).
Proof.
  unfold Map_wf. induction m as [| e r IH]; simpl; [auto |].
  intros ND. inversion ND as [| ? ? Hn ND']; subst.
  destruct (p e); simpl; [| auto].
  constructor; [| auto].
  intros H. apply Hn. unfold Map_keys in *.
  apply in_map_iff in H as [x [Hx Hin]].
  apply filter_In in Hin as [Hin _].
  rewrite <- Hx. now apply in_map.
Qed.

Lemma Map_wf_delete m k : Map_wf m -> Map_wf (Map_delete m k).
Proof. apply Map_wf_filter. Qed.

Lemma occurrences_absent m k : ~ In k (Map_keys m) -> occurrences m k = 0%nat.
Proof.
  unfold occurrences. induction m as [| [k' v'] r IH]; simpl; [reflexivity |].
  intros H. same_key k' k; simpl; [tauto | apply IH; tauto].
Qed.

Lemma occurrences_wf m k :
  Map_wf m -> occurrences m k = if Map_has m k then 1%nat else 0%nat.
Proof.
  unfold Map_wf, Map_has, occurrences.
  induction m as [| [k' v'] r IH]; simpl; [reflexivity |].
  intros ND. inversion ND as [| ? ? Hn ND']; subst.
  same_key k' k; simpl.
  - f_equal. now apply occurrences_absent.
  - now apply IH.
Qed.
End MapFacts.

(** ** The sweep *)

Lemma filter_filter {A : Type} (p q : A -> bool) (l : list A) :
  filter p (filter q l) = filter (fun x => q x && p x) l.
Proof.
  induction l as [| x l IH]; simpl; [reflexivity |].
  destruct (q x); simpl; [destruct (p x) |]; now rewrite IH.
Qed.

(** What the loop has deleted from [m] once it has visited [visited]. *)
Lemma cleanup_loop (now : Z) (visited : list (jsval * User)) (m : Map User) :
  fold_left
    (fun (m : Map User) (e : jsval * User) =>
       let (username, data) := e in
       if now - lastSeen data >? timeout then Map_delete m username else m)
    visited m =
  filter
    (fun e =>
       negb (existsb
               (fun e' => expired now (snd e') && SameValueZero (fst e) (fst e'))
               visited))
    m.
Proof.
  revert m. induction visited as [| [k d] l IH]; intros m; simpl.
  - symmetry. apply forallb_filter_id. now apply forallb_forall.
  - rewrite IH. unfold expired, TTL, timeout.
    destruct (now - lastSeen d >? 10000); simpl.
    + unfold Map_delete. rewrite filter_filter. apply filter_ext.
      intros [k' d']; simpl.
      rewrite negb_orb. reflexivity.
    + reflexivity.
Qed.

Lemma cleanup_is_sweep (now : Z) (st : State) :
  Map_wf (activeUsers st) ->
  activeUsers (cleanupInactiveUsers now st) = sweep now (activeUsers st).
Proof.
  intros WF. unfold cleanupInactiveUsers, sweep, Map_entries; simpl.
  rewrite cleanup_loop. apply filter_ext_in.
  intros [k d] Hin; simpl. f_equal.
  destruct (expired now d) eqn:X.
  - apply existsb_exists. exists (k, d); simpl.
    now rewrite X, SameValueZero_refl.
  - destruct (existsb _ _) eqn:Ex; [| reflexivity].
    apply existsb_exists in Ex as [[k' d'] [Hin' H]]; simpl in H.
    apply andb_true_iff in H as [X' K]. apply SameValueZero_eq in K; subst.
    apply (In_Map_get _ _ _ WF) in Hin. apply (In_Map_get _ _ _ WF) in Hin'.
    congruence.
Qed.

Lemma cleanup_pending (now : Z) (st : State) :
  pendingNotifications (cleanupInactiveUsers now st) = pendingNotifications st.
Proof. reflexivity. Qed.

Lemma Map_get_filter {V : Type} (p : jsval * V -> bool) (m : Map V) (k : jsval) :
  Map_wf m ->
  Map_get (filter p m) k =
  match Map_get m k with
  | Some v => if p (k, v) then Some v else None
  | None => None
  end.
Proof.
  unfold Map_wf. induction m as [| [k' v'] r IH]; simpl; [reflexivity |].
  intros ND. inversion ND as [| ? ? Hn ND']; subst.
  same_key k' k.
  - destruct (p (k, v')); simpl; rewrite ?SameValueZero_refl; [reflexivity |].
    apply Map_get_None. intros H. apply Hn.
    unfold Map_keys in *. apply in_map_iff in H as [x [Hx Hin]].
    apply filter_In in Hin as [Hin _]. rewrite <- Hx. now apply in_map.
  - destruct (p (k', v')); simpl; rewrite ?(SameValueZero_neq _ _ E); auto.
Qed.

Lemma cleanup_wf (now : Z) (st : State) :
  State_wf st -> State_wf (cleanupInactiveUsers now st).
Proof.
  intros [WA WP]. split; [| exact WP].
  rewrite cleanup_is_sweep by exact WA. now apply Map_wf_filter.
Qed.

(** ** The broadcast loop *)

Lemma broadcast_loop (now : Z) (l : list (jsval * User))
    (pn : Map Notification) (c : nat) :
  fold_left
    (fun (acc : Map Notification * nat) (e : jsval * User) =>
       let (pn, count) := acc in (setFor (fst e) now pn, S count))
    l (pn, c) =
  (fold_left (fun pn e => setFor (fst e) now pn) l pn, (c + List.length l)%nat).
Proof.
  revert pn c. induction l as [| e l IH]; intros pn c; simpl.
  - now rewrite Nat.add_0_r.
  - rewrite IH. f_equal. lia.
Qed.

Lemma broadcast_count (now : Z) (au : Map User) (pn : Map Notification) :
  snd (broadcastToAllPresent now au pn) = count au.
Proof.
  unfold broadcastToAllPresent, Map_entries. now rewrite broadcast_loop.
Qed.

Lemma broadcast_get (now : Z) (au : Map User) (pn : Map Notification)
    (k : jsval) :
  Map_get (fst (broadcastToAllPresent now au pn)) k =
  if Map_has au k then Some {| type := lit "sound"; timestamp := now |}
  else Map_get pn k.
Proof.
  unfold broadcastToAllPresent, Map_entries. rewrite broadcast_loop; simpl.
  revert pn. induction au as [| [k' d] r IH]; intros pn; simpl; [reflexivity |].
  rewrite IH. unfold Map_has; simpl. same_key k' k.
  - destruct (Map_get r k); [reflexivity |].
    unfold setFor. apply Map_get_set_same.
  - destruct (Map_get r k); [reflexivity |].
    unfold setFor. apply Map_get_set_other. congruence.
Qed.

Lemma broadcast_wf (now : Z) (au : Map User) (pn : Map Notification) :
  Map_wf pn -> Map_wf (fst (broadcastToAllPresent now au pn)).
Proof.
  unfold broadcastToAllPresent, Map_entries. rewrite broadcast_loop; simpl.
  revert pn. induction au as [| [k' d] r IH]; intros pn WF; simpl; [exact WF |].
  apply IH. unfold setFor. now apply Map_wf_set.
Qed.

(** ** Every reachable state holds each key once *)

Lemma registerOrTouch_wf (u : jsval) (now : Z) (m : Map User) :
  Map_wf m -> Map_wf (registerOrTouch u now m).
Proof.
  intros WF. unfold registerOrTouch.
  destruct (Map_has m u); [now apply Map_wf_mutate | now apply Map_wf_set].
Qed.

Lemma dispatch_wf (now : Z) (request : Request) (st : State) r :
  State_wf st -> dispatch now request st = Some r -> State_wf (snd r).
Proof.
  intros [WA WP]. unfold dispatch.
  repeat match goal with |- context [if ?c then _ else _] => destruct c end.
  - unfold login. destruct (request_json request) as [[]|]; try discriminate;
      try (intros [= <-]; split; assumption).
    destruct (_ || _); [intros [= <-]; split; assumption |].
    destruct (negb _); intros [= <-]; split; simpl; try assumption.
    unfold register. now apply Map_wf_set.
  - unfold heartbeat. destruct (request_json request) as [u|]; [| discriminate].
    destruct (negb _); intros [= <-]; split; simpl; try assumption.
    now apply registerOrTouch_wf.
  - intros [= <-]. unfold logout; simpl.
    destruct (body request) as [| | u]; try (split; assumption).
    destruct (truthy u); split; simpl; try assumption.
    unfold remove. now apply Map_wf_delete.
  - intros [= <-]. split; assumption.
  - unfold notify. destruct (request_json request) as [u|]; [| discriminate].
    destruct (negb _); [intros [= <-]; split; assumption |].
    destruct (Map_has _ _); intros [= <-]; split; simpl; try assumption.
    unfold setFor. now apply Map_wf_set.
  - intros [= <-]. unfold notifyAll.
    pose proof (broadcast_wf now (activeUsers st) _ WP) as W.
    destruct (broadcastToAllPresent _ _ _) as [pn c]; split; assumption.
  - unfold checkNotification.
    destruct (request_json request) as [u|]; [| discriminate].
    destruct (negb _); [intros [= <-]; split; assumption |].
    assert (W : Map_wf (snd (takeFor u (pendingNotifications st)))).
    { unfold takeFor. destruct (Map_has _ _); simpl;
        [now apply Map_wf_delete | assumption]. }
    destruct (takeFor _ _) as [[n|] pn]; intros [= <-]; split; assumption.
  - intros [= <-]. split; assumption.
  - intros [= <-]. split; assumption.
Qed.

Lemma fetch_wf (now0 now1 : Z) (request : Request) (st : State) :
  State_wf st -> State_wf (snd (fetch now0 now1 request st)).
Proof.
  intros WF. unfold fetch.
  destruct (method request =? "OPTIONS")%string; [exact WF |].
  apply (cleanup_wf now0) in WF.
  destruct (dispatch _ _ _) as [r|] eqn:D; [| exact WF].
  exact (dispatch_wf _ _ _ _ WF D).
Qed.

Lemma initial_wf : State_wf initial.
Proof. split; apply Map_wf_new. Qed.

Lemma reachable_wf (st : State) : reachable st -> State_wf st.
Proof.
  induction 1 as [| now0 now1 request st _ IH];
    [apply initial_wf | now apply fetch_wf].
Qed.

(** ** [trim] *)

Lemma trimStart_split (s : jsstring) :
  exists l, s = l ++ trimStart s /\ forallb isWhiteSpace l = true.
Proof.
  induction s as [| c r [l [E W]]]; simpl.
  - now exists [].
  - destruct (isWhiteSpace c) eqn:C.
    + exists (c :: l); simpl. rewrite C, W. split; [now f_equal | reflexivity].
    + now exists [].
Qed.

Lemma trimStart_head (s : jsstring) :
  match trimStart s with [] => True | c :: _ => isWhiteSpace c = false end.
Proof.
  induction s as [| c r IH]; simpl; [exact I |].
  destruct (isWhiteSpace c) eqn:C; [exact IH | exact C].
Qed.

Lemma trimStart_blank (s : jsstring) :
  trimStart s = [] <-> forallb isWhiteSpace s = true.
Proof.
  induction s as [| c r IH]; simpl; [tauto |].
  destruct (isWhiteSpace c); simpl; [exact IH | split; discriminate].
Qed.

Lemma trimStart_snoc (s : jsstring) (c : N) :
  isWhiteSpace c = false -> trimStart (s ++ [c]) = trimStart s ++ [c].
Proof.
  intros C. induction s as [| x r IH]; simpl.
  - now rewrite C.
  - destruct (isWhiteSpace x); [exact IH | reflexivity].
Qed.

Lemma trimEnd_split (s : jsstring) :
  exists r, s = trimEnd s ++ r /\ forallb isWhiteSpace r = true.
Proof.
  unfold trimEnd. destruct (trimStart_split (rev s)) as [l [E W]].
  exists (rev l). split.
  - rewrite <- rev_app_distr, <- E. now rewrite rev_involutive.
  - apply forallb_forall. intros x Hx. apply in_rev in Hx.
    rewrite forallb_forall in W. now apply W.
Qed.

Lemma trimEnd_cons (c : N) (s : jsstring) :
  isWhiteSpace c = false -> trimEnd (c :: s) = c :: trimEnd s.
Proof.
  intros C. unfold trimEnd; simpl.
  rewrite trimStart_snoc by exact C. rewrite rev_app_distr. reflexivity.
Qed.

Lemma trimEnd_last (s : jsstring) (c : N) (t : jsstring) :
  trimEnd s = t ++ [c] -> isWhiteSpace c = false.
Proof.
  unfold trimEnd. intros E.
  apply (f_equal (@rev N)) in E. rewrite rev_involutive, rev_app_distr in E.
  simpl in E. pose proof (trimStart_head (rev s)) as H. now rewrite E in H.
Qed.

Lemma trim_blank (s : jsstring) :
  trim s = [] <-> forallb isWhiteSpace s = true.
Proof.
  unfold trim. split.
  - intros E. destruct (trimStart s) as [| c t] eqn:T.
    + now apply trimStart_blank.
    + pose proof (trimStart_head s) as H. rewrite T in H.
      rewrite trimEnd_cons in E by exact H. discriminate.
  - intros W. apply trimStart_blank in W. now rewrite W.
Qed.

(** [trim] removes a run of white space at each end, and what is left
    neither starts nor ends with white space. *)
Lemma trim_spec (s : jsstring) :
  (exists l r, s = l ++ trim s ++ r
               /\ forallb isWhiteSpace l = true
               /\ forallb isWhiteSpace r = true)
  /\ match trim s with [] => True | c :: _ => isWhiteSpace c = false end
  /\ (forall t c, trim s = t ++ [c] -> isWhiteSpace c = false).
Proof.
  unfold trim. repeat split.
  - destruct (trimStart_split s) as [l [E W]].
    destruct (trimEnd_split (trimStart s)) as [r [E' W']].
    exists l, r. repeat split; try assumption.
    rewrite <- E'. exact E.
  - pose proof (trimStart_head s) as H.
    destruct (trimStart s) as [| c t]; [exact I |].
    now rewrite trimEnd_cons.
  - intros t c. apply trimEnd_last.
Qed.

Lemma isEmpty_trim (s : jsstring) :
  isEmpty (trim s) = forallb isWhiteSpace s.
Proof.
  destruct (forallb isWhiteSpace s) eqn:W.
  - apply trim_blank in W. now rewrite W.
  - destruct (trim s) eqn:T; [| reflexivity].
    apply trim_blank in T. congruence.
Qed.

(** ** The operations on one key *)

Lemma registerOrTouch_get_same (u : jsval) (now : Z) (m : Map User) :
  Map_get (registerOrTouch u now m) u =
  match Map_get m u with
  | Some d => Some (touch now d)
  | None => Some {| username := u; lastSeen := now; loginTime := now |}
  end.
Proof.
  unfold registerOrTouch, Map_has. destruct (Map_get m u) eqn:G.
  - now rewrite Map_get_mutate_same, G.
  - apply Map_get_set_same.
Qed.

Lemma registerOrTouch_get_other (u k : jsval) (now : Z) (m : Map User) :
  k <> u -> Map_get (registerOrTouch u now m) k = Map_get m k.
Proof.
  intros N. unfold registerOrTouch.
  destruct (Map_has m u);
    [now apply Map_get_mutate_other | now apply Map_get_set_other].
Qed.

Lemma sweep_get (now : Z) (m : Map User) (u : jsval) :
  Map_wf m ->
  Map_get (sweep now m) u =
  match Map_get m u with
  | Some d => if now - lastSeen d >? 10000 then None else Some d
  | None => None
  end.
Proof.
  intros WF. unfold sweep. rewrite Map_get_filter by exact WF.
  destruct (Map_get m u) as [d|]; [| reflexivity].
  simpl. unfold expired, TTL. now destruct (now - lastSeen d >? 10000).
Qed.

Lemma fetch_heartbeat (now0 now1 : Z) (u : jsval) (st : State) :
  truthy u = true ->
  fetch now0 now1 (POST "/heartbeat" u) st =
  (jsonResponse Success 200,
   {| activeUsers :=
        registerOrTouch u now1 (activeUsers (cleanupInactiveUsers now0 st));
      pendingNotifications := pendingNotifications st |}).
Proof.
  intros T. unfold fetch, dispatch, heartbeat; simpl. now rewrite T.
Qed.

(** * The claims *)

(** C1 (fails on the code).  The specification keeps the admin identity out
    of the presence registry under every sequence of requests.  The heartbeat
    route inserts whatever truthy username it is given: one heartbeat that
    names [ADMIN_USERNAME], sent to the fresh worker, leads to a reachable
    state whose registry holds the admin, and the next [/users] answer lists
    it. *)
Theorem heartbeat_registers_admin :
  let admin := JString ADMIN_USERNAME in
  let st := snd (fetch 1000 1000 (POST "/heartbeat" admin) initial) in
  reachable st
  /\ Map_has (activeUsers st) admin = true
  /\ fst (fetch 2000 2000 (GET "/users") st) =
     jsonResponse
       (UserList
          [{| username := admin; lastSeen := 1000; loginTime := 1000 |}] 1)
       200.
Proof.
  split; [apply reachable_fetch, reachable_initial |].
  split; reflexivity.
Qed.

(** The login route, for its part, never writes the admin key. *)
Lemma login_keeps_admin_out (now0 now1 : Z) (v : jsval) (st : State) :
  Map_wf (activeUsers st) ->
  Map_has (activeUsers st) (JString ADMIN_USERNAME) = false ->
  Map_has (activeUsers (snd (fetch now0 now1 (POST "/login" v) st)))
    (JString ADMIN_USERNAME) = false.
Proof.
  intros WF H.
  assert (H0 : Map_has (activeUsers (cleanupInactiveUsers now0 st))
                 (JString ADMIN_USERNAME) = false).
  { unfold Map_has in *. rewrite cleanup_is_sweep, sweep_get by exact WF.
    now destruct (Map_get (activeUsers st) _). }
  unfold fetch, dispatch, login; simpl.
  destruct v; simpl; try exact H0.
  destruct (_ || _); simpl; [exact H0 |].
  unfold jsstring_eqb.
  destruct (list_eq_dec N.eq_dec (trim s) ADMIN_USERNAME) as [E | E]; simpl;
    [exact H0 |].
  unfold Map_has, register in *.
  rewrite Map_get_set_other by congruence. exact H0.
Qed.

(** C2.  The sweep removes exactly the records with [now - lastSeen > 10000]
    and keeps the others in place; a record with [now - lastSeen = 10000]
    survives; after [registerOrTouch u t] a sweep at [t + 10000 + 1] leaves
    [u] inactive. *)
Theorem sweep_removes_exactly_expired (now : Z) (st : State)
    (WF : Map_wf (activeUsers st)) :
  let swept := activeUsers (cleanupInactiveUsers now st) in
  swept = sweep now (activeUsers st)
  /\ (forall u,
        Map_get swept u =
        match Map_get (activeUsers st) u with
        | Some d => if now - lastSeen d >? 10000 then None else Some d
        | None => None
        end)
  /\ (forall u d,
        Map_get (activeUsers st) u = Some d ->
        now - lastSeen d = 10000 -> Map_get swept u = Some d)
  /\ (forall u t,
        let touched :=
          {| activeUsers := registerOrTouch u t (activeUsers st);
             pendingNotifications := pendingNotifications st |} in
        isActive (activeUsers (cleanupInactiveUsers (t + 10000 + 1) touched)) u
        = false).
Proof.
  cbv zeta. split; [now apply cleanup_is_sweep |].
  split; [| split].
  - intros u. rewrite cleanup_is_sweep by exact WF. now apply sweep_get.
  - intros u d G B. rewrite cleanup_is_sweep, sweep_get, G by exact WF.
    rewrite B. reflexivity.
  - intros u t. unfold isActive, Map_has.
    rewrite cleanup_is_sweep by (simpl; now apply registerOrTouch_wf).
    simpl. rewrite sweep_get by now apply registerOrTouch_wf.
    rewrite registerOrTouch_get_same.
    destruct (Map_get (activeUsers st) u) as [d|]; simpl;
      replace (t + 10000 + 1 - t) with 10001 by lia; reflexivity.
Qed.

(** C3.  A heartbeat with a truthy username always succeeds and is an
    upsert: an unknown [u] gets a record with [loginTime = lastSeen = now],
    a known [u] gets [lastSeen = now] and keeps its [loginTime], and every
    other record is untouched. *)
Theorem heartbeat_is_upsert (now0 now : Z) (u : jsval) (st : State)
    (T : truthy u = true) :
  let st0 := cleanupInactiveUsers now0 st in
  let r := fetch now0 now (POST "/heartbeat" u) st in
  fst r = jsonResponse Success 200
  /\ pendingNotifications (snd r) = pendingNotifications st
  /\ (Map_get (activeUsers st0) u = None ->
      Map_get (activeUsers (snd r)) u =
      Some {| username := u; lastSeen := now; loginTime := now |})
  /\ (forall d,
        Map_get (activeUsers st0) u = Some d ->
        Map_get (activeUsers (snd r)) u =
        Some {| username := username d; lastSeen := now;
                loginTime := loginTime d |})
  /\ (forall k, k <> u ->
        Map_get (activeUsers (snd r)) k = Map_get (activeUsers st0) k)
  /\ Map_keys (activeUsers (snd r)) =
     if isActive (activeUsers st0) u then Map_keys (activeUsers st0)
     else Map_keys (activeUsers st0) ++ [u].
Proof.
  intros st0 r. subst r. rewrite fetch_heartbeat by exact T.
  fold st0. cbn [fst snd activeUsers pendingNotifications]. repeat split.
  - intros G. now rewrite registerOrTouch_get_same, G.
  - intros d G. now rewrite registerOrTouch_get_same, G.
  - intros k N. now apply registerOrTouch_get_other.
  - unfold registerOrTouch, isActive.
    destruct (Map_has (activeUsers st0) u) eqn:H.
    + apply Map_keys_mutate.
    + rewrite Map_keys_set. now rewrite H.
Qed.

Lemma takeFor_spec (u : jsval) (pn : Map Notification) :
  takeFor u pn = (Map_get pn u, Map_delete pn u).
Proof.
  unfold takeFor. destruct (Map_has pn u) eqn:H; [reflexivity |].
  rewrite Map_delete_absent by exact H.
  unfold Map_has in H. now destruct (Map_get pn u).
Qed.

Lemma fetch_check (now0 now1 : Z) (u : jsval) (st : State) :
  truthy u = true ->
  fetch now0 now1 (POST "/check-notification" u) st =
  (jsonResponse
     match Map_get (pendingNotifications st) u with
     | Some n => HasNotification n
     | None => NoNotification
     end 200,
   {| activeUsers := activeUsers (cleanupInactiveUsers now0 st);
      pendingNotifications := Map_delete (pendingNotifications st) u |}).
Proof.
  intros T. unfold fetch, dispatch, checkNotification; simpl.
  rewrite T; simpl. rewrite takeFor_spec.
  now destruct (Map_get (pendingNotifications st) u).
Qed.

(** C4.  [takeFor] reads and clears in one step: right after [setFor u t] it
    returns that notification and leaves none for [u]; a second [takeFor]
    returns nothing and changes nothing; for a username with nothing pending
    it returns nothing, leaves the mailbox as it is, and the route answers
    200 with [hasNotification: false]. *)
Theorem take_after_set_consumes_once (u : jsval) (t : Z)
    (pn : Map Notification) (T : truthy u = true) :
  let n := {| type := lit "sound"; timestamp := t |} in
  let first := takeFor u (setFor u t pn) in
  let second := takeFor u (snd first) in
  fst first = Some n
  /\ Map_get (snd first) u = None
  /\ (forall k, k <> u -> Map_get (snd first) k = Map_get pn k)
  /\ second = (None, snd first)
  /\ (forall pn', Map_has pn' u = false -> takeFor u pn' = (None, pn'))
  /\ (forall now0 now1 st,
        Map_has (pendingNotifications st) u = false ->
        fetch now0 now1 (POST "/check-notification" u) st =
        (jsonResponse NoNotification 200, cleanupInactiveUsers now0 st)).
Proof.
  cbv zeta. rewrite !takeFor_spec. cbn [fst snd]. unfold setFor.
  rewrite Map_get_set_same, Map_get_delete_same.
  repeat split.
  - intros k N. rewrite Map_get_delete_other, Map_get_set_other by exact N.
    reflexivity.
  - f_equal. apply Map_delete_absent. unfold Map_has.
    now rewrite Map_get_delete_same.
  - intros pn' H. rewrite takeFor_spec, (Map_delete_absent _ _ H).
    unfold Map_has in H. now destruct (Map_get pn' u).
  - intros now0 now1 st H. rewrite fetch_check by exact T.
    rewrite (Map_delete_absent _ _ H).
    unfold Map_has in H.
    destruct (Map_get (pendingNotifications st) u); [discriminate |].
    reflexivity.
Qed.

(** C5.  In every reachable state the mailbox holds at most one record per
    username, and [setFor u t2] after [setFor u t1] leaves exactly one record
    for [u], the one stamped [t2]. *)
Theorem mailbox_single_slot (st : State) (R : reachable st) :
  (forall u, (occurrences (pendingNotifications st) u <= 1)%nat)
  /\ (forall u t1 t2,
        let pn := setFor u t2 (setFor u t1 (pendingNotifications st)) in
        occurrences pn u = 1%nat
        /\ Map_get pn u = Some {| type := lit "sound"; timestamp := t2 |}).
Proof.
  apply reachable_wf in R. destruct R as [_ WP]. split.
  - intros u. rewrite occurrences_wf by exact WP.
    destruct (Map_has _ _); lia.
  - intros u t1 t2. cbv zeta. unfold setFor. split.
    + rewrite occurrences_wf by now do 2 apply Map_wf_set.
      unfold Map_has. now rewrite Map_get_set_same.
    + apply Map_get_set_same.
Qed.

(** C6.  A direct notify of a truthy username answers 404 exactly when the
    username is absent from the swept registry, and then leaves the mailbox
    as it was; when the username is present it answers 200 and the mailbox
    holds a ['sound'] record stamped with the time of the call. *)
Theorem notify_requires_presence (now0 now : Z) (u : jsval) (st : State)
    (T : truthy u = true) :
  let st0 := cleanupInactiveUsers now0 st in
  let r := fetch now0 now (POST "/notify" u) st in
  (status (fst r) = 404 <-> isActive (activeUsers st0) u = false)
  /\ (isActive (activeUsers st0) u = false ->
      r = (jsonResponse (Failure "User not found") 404, st0)
      /\ pendingNotifications (snd r) = pendingNotifications st)
  /\ (isActive (activeUsers st0) u = true ->
      r = (jsonResponse Success 200,
           {| activeUsers := activeUsers st0;
              pendingNotifications :=
                setFor u now (pendingNotifications st) |})
      /\ Map_get (pendingNotifications (snd r)) u =
         Some {| type := lit "sound"; timestamp := now |}).
Proof.
  intros st0 r. subst r. unfold fetch, dispatch, notify, isActive.
  cbn [method pathname POST String.eqb Ascii.eqb Bool.eqb andb request_json body].
  rewrite T. cbn [negb]. fold st0.
  destruct (Map_has (activeUsers st0) u) eqn:H; cbn [fst snd status jsonResponse].
  - split; [split; discriminate |]. split; [discriminate |].
    intros _. split; [reflexivity |].
    cbn [pendingNotifications]. unfold setFor. apply Map_get_set_same.
  - split; [split; reflexivity |]. split; [| discriminate].
    intros _. split; reflexivity.
Qed.

Lemma fetch_notifyAll (now0 now1 : Z) (b : Body) (st : State) :
  fetch now0 now1 {| method := "POST"; pathname := "/notify-all"; body := b |}
    st =
  let st0 := cleanupInactiveUsers now0 st in
  let bc :=
    broadcastToAllPresent now1 (activeUsers st0) (pendingNotifications st) in
  (jsonResponse (Notified (snd bc)) 200,
   {| activeUsers := activeUsers st0; pendingNotifications := fst bc |}).
Proof.
  unfold fetch, dispatch, notifyAll.
  cbn [method pathname String.eqb Ascii.eqb Bool.eqb andb].
  rewrite cleanup_pending.
  now destruct (broadcastToAllPresent _ _ _).
Qed.

Lemma fetch_login_pending (now0 now1 : Z) (v : jsval) (st : State) :
  pendingNotifications (snd (fetch now0 now1 (POST "/login" v) st)) =
  pendingNotifications st.
Proof.
  unfold fetch, dispatch, login.
  cbn [method pathname POST String.eqb Ascii.eqb Bool.eqb andb request_json body].
  destruct v; try reflexivity.
  destruct (_ || _); [reflexivity |].
  now destruct (negb _).
Qed.

(** C7.  [/notify-all] answers with the number of users present in the swept
    registry (0 when there is none), writes a ['sound'] record stamped with
    the time of the call for each of them, and leaves the slot of every other
    username as it was; a user who registers afterwards, by heartbeat or by
    login, still has the slot it had before the broadcast. *)
Theorem broadcast_notifies_snapshot (now0 now : Z) (b : Body) (st : State) :
  let st0 := cleanupInactiveUsers now0 st in
  let r :=
    fetch now0 now
      {| method := "POST"; pathname := "/notify-all"; body := b |} st in
  fst r = jsonResponse (Notified (count (activeUsers st0))) 200
  /\ (activeUsers st0 = [] -> fst r = jsonResponse (Notified 0) 200)
  /\ activeUsers (snd r) = activeUsers st0
  /\ (forall u,
        isActive (activeUsers st0) u = true ->
        Map_get (pendingNotifications (snd r)) u =
        Some {| type := lit "sound"; timestamp := now |})
  /\ (forall u,
        isActive (activeUsers st0) u = false ->
        Map_get (pendingNotifications (snd r)) u =
        Map_get (pendingNotifications st) u)
  /\ (forall u t0 t1,
        truthy u = true ->
        isActive (activeUsers st0) u = false ->
        let joined := snd (fetch t0 t1 (POST "/heartbeat" u) (snd r)) in
        isActive (activeUsers joined) u = true
        /\ Map_get (pendingNotifications joined) u =
           Map_get (pendingNotifications st) u)
  /\ (forall s t0 t1,
        isActive (activeUsers st0) (JString (trim s)) = false ->
        let joined := snd (fetch t0 t1 (POST "/login" (JString s)) (snd r)) in
        Map_get (pendingNotifications joined) (JString (trim s)) =
        Map_get (pendingNotifications st) (JString (trim s))).
Proof.
  intros st0 r. subst r. rewrite fetch_notifyAll. fold st0.
  cbn [fst snd activeUsers pendingNotifications].
  rewrite broadcast_count.
  assert (Absent : forall u,
            isActive (activeUsers st0) u = false ->
            Map_get
              (fst (broadcastToAllPresent now (activeUsers st0)
                      (pendingNotifications st))) u =
            Map_get (pendingNotifications st) u).
  { intros u H. rewrite broadcast_get. unfold isActive in H. now rewrite H. }
  repeat split.
  - intros E. now rewrite E.
  - intros u H. rewrite broadcast_get. unfold isActive in H. now rewrite H.
  - exact Absent.
  - rewrite fetch_heartbeat by assumption.
    cbn [snd activeUsers]. unfold isActive, Map_has.
    rewrite registerOrTouch_get_same. now destruct (Map_get _ u).
  - rewrite fetch_heartbeat by assumption.
    cbn [snd pendingNotifications]. now apply Absent.
  - intros s t0 t1 H. cbv zeta. rewrite fetch_login_pending.
    cbn [pendingNotifications]. now apply Absent.
Qed.

Lemma fetch_login_blank (now0 now1 : Z) (v : jsval) (st : State) :
  blank v = true ->
  fetch now0 now1 (POST "/login" v) st =
  (jsonResponse (Failure "Invalid username") 400, cleanupInactiveUsers now0 st).
Proof.
  intros B. unfold fetch, dispatch, login.
  cbn [method pathname POST String.eqb Ascii.eqb Bool.eqb andb request_json body].
  destruct v; try reflexivity.
  simpl in B. rewrite isEmpty_trim, B. now rewrite orb_true_r.
Qed.

Lemma fetch_login_accept (now0 now1 : Z) (s : jsstring) (st : State) :
  forallb isWhiteSpace s = false ->
  fetch now0 now1 (POST "/login" (JString s)) st =
  let st0 := cleanupInactiveUsers now0 st in
  let isAdmin := jsstring_eqb (trim s) ADMIN_USERNAME in
  (jsonResponse (LoginOk isAdmin (trim s)) 200,
   if isAdmin then st0
   else {| activeUsers := register (trim s) now1 (activeUsers st0);
           pendingNotifications := pendingNotifications st |}).
Proof.
  intros B. unfold fetch, dispatch, login.
  cbn [method pathname POST String.eqb Ascii.eqb Bool.eqb andb request_json body].
  rewrite isEmpty_trim, B.
  assert (T : truthy (JString s) = true) by (destruct s; [discriminate | reflexivity]).
  rewrite T. cbn [negb orb]. cbv zeta.
  now destruct (jsstring_eqb (trim s) ADMIN_USERNAME).
Qed.

(** A body that is empty or does not parse makes [request.json()] throw:
    the outer [catch] answers 500 and the state stays the swept one. *)
Lemma fetch_login_unparsable (now0 now1 : Z) (b : Body) (st : State) :
  b = Empty \/ b = Malformed ->
  fetch now0 now1 {| method := "POST"; pathname := "/login"; body := b |} st =
  (jsonResponse (Error "Internal server error") 500,
   cleanupInactiveUsers now0 st).
Proof. intros [-> | ->]; reflexivity. Qed.

(** C8.  The login route trims the username: ["  alice  "] is answered with
    and registered as ["alice"]; any accepted username is answered with, and
    (unless it is the admin's) registered under, what is left of it once the
    white space at both ends is removed; a missing, non-string, empty or
    white-space-only username is answered 400 and the state stays the swept
    one. *)
Theorem login_trims_and_validates (now0 now : Z) (st : State) :
  let st0 := cleanupInactiveUsers now0 st in
  let alice := lit "alice" in
  fetch now0 now (POST "/login" (JString (lit "  alice  "))) st =
  (jsonResponse (LoginOk false alice) 200,
   {| activeUsers := register alice now (activeUsers st0);
      pendingNotifications := pendingNotifications st |})
  /\ Map_get (register alice now (activeUsers st0)) (JString alice) =
     Some {| username := JString alice; lastSeen := now; loginTime := now |}
  /\ (forall s,
        blank (JString s) = false ->
        let res := fetch now0 now (POST "/login" (JString s)) st in
        (exists l r, s = l ++ trim s ++ r
                     /\ forallb isWhiteSpace l = true
                     /\ forallb isWhiteSpace r = true)
        /\ blank (JString (trim s)) = false
        /\ fst res =
           jsonResponse
             (LoginOk (jsstring_eqb (trim s) ADMIN_USERNAME) (trim s)) 200
        /\ (trim s <> ADMIN_USERNAME ->
            Map_get (activeUsers (snd res)) (JString (trim s)) =
            Some {| username := JString (trim s); lastSeen := now;
                    loginTime := now |}))
  /\ (forall v,
        blank v = true ->
        fetch now0 now (POST "/login" v) st =
        (jsonResponse (Failure "Invalid username") 400, st0))
  /\ blank JUndefined = true
  /\ blank (JString []) = true
  /\ blank (JString (lit "   ")) = true.
Proof.
  intros st0 alice. split; [| split; [| split; [| split]]].
  - rewrite fetch_login_accept by reflexivity. reflexivity.
  - unfold register. apply Map_get_set_same.
  - intros s B. simpl in B. cbv zeta.
    rewrite fetch_login_accept by exact B. cbv zeta. fold st0.
    split; [apply trim_spec |]. split; [| split; [reflexivity |]].
    + simpl. destruct (forallb isWhiteSpace (trim s)) eqn:W; [| reflexivity].
      destruct (trim s) as [| c t] eqn:E.
      * apply trim_blank in E. congruence.
      * pose proof (proj1 (proj2 (trim_spec s))) as H. rewrite E in H.
        simpl in W. rewrite H in W. discriminate.
    + intros N. unfold jsstring_eqb.
      destruct (list_eq_dec N.eq_dec (trim s) ADMIN_USERNAME); [contradiction |].
      cbn [snd activeUsers]. unfold register. apply Map_get_set_same.
  - intros v B. now apply fetch_login_blank.
  - repeat split.
Qed.

Lemma sweep_fresh (now : Z) (m : Map User) (k : jsval) (d : User) :
  In (k, d) (sweep now m) -> now - lastSeen d <= 10000.
Proof.
  unfold sweep. intros H. apply filter_In in H as [_ H].
  simpl in H. unfold expired, TTL in H.
  destruct (now - lastSeen d >? 10000) eqn:X; [discriminate |].
  rewrite Z.gtb_ltb in X. apply Z.ltb_ge in X. exact X.
Qed.

Lemma sweep_idempotent (now : Z) (m : Map User) :
  sweep now (sweep now m) = sweep now m.
Proof.
  unfold sweep. rewrite filter_filter. apply filter_ext.
  intros e. now destruct (expired now (snd e)).
Qed.

Lemma cleanup_idempotent (now : Z) (st : State) :
  Map_wf (activeUsers st) ->
  cleanupInactiveUsers now (cleanupInactiveUsers now st) =
  cleanupInactiveUsers now st.
Proof.
  intros WF.
  assert (E : forall s, Map_wf (activeUsers s) ->
            cleanupInactiveUsers now s =
            {| activeUsers := sweep now (activeUsers s);
               pendingNotifications := pendingNotifications s |}).
  { intros s W. rewrite <- (cleanup_is_sweep now s W). reflexivity. }
  rewrite (E (cleanupInactiveUsers now st)).
  - rewrite cleanup_pending, cleanup_is_sweep, sweep_idempotent by exact WF.
    now rewrite (E st WF).
  - rewrite cleanup_is_sweep by exact WF. now apply Map_wf_filter.
Qed.

Lemma listActive_In (m : Map User) (d : User) :
  In d (listActive m) ->
  exists k d', In (k, d') m /\ lastSeen d = lastSeen d'.
Proof.
  unfold listActive, Map_values. rewrite map_map. intros H.
  apply in_map_iff in H as [[k d'] [E Hin]]. exists k, d'.
  split; [exact Hin | now subst d].
Qed.

(** C9.  Every request that is not a preflight is answered by its route
    running on the swept state: the registry the route sees holds no record
    with [now - lastSeen > 10000] at the time of the sweep, [/users] lists
    none, a username whose record had expired is not present for the route,
    and the answer and the next state do not depend on what the sweep
    removed. *)
Theorem sweep_runs_first (now0 now1 : Z) (request : Request) (st : State)
    (WF : Map_wf (activeUsers st))
    (M : (method request =? "OPTIONS")%string = false) :
  let st0 := cleanupInactiveUsers now0 st in
  fetch now0 now1 request st =
  match dispatch now1 request st0 with
  | Some r => r
  | None => (jsonResponse (Error "Internal server error") 500, st0)
  end
  /\ (forall u d,
        Map_get (activeUsers st0) u = Some d -> now0 - lastSeen d <= 10000)
  /\ (forall d,
        In d (listActive (activeUsers st0)) -> now0 - lastSeen d <= 10000)
  /\ (forall u d,
        Map_get (activeUsers st) u = Some d ->
        now0 - lastSeen d > 10000 -> isActive (activeUsers st0) u = false)
  /\ (forall st',
        cleanupInactiveUsers now0 st' = st0 ->
        fetch now0 now1 request st' = fetch now0 now1 request st)
  /\ fetch now0 now1 request st0 = fetch now0 now1 request st.
Proof.
  intros st0.
  assert (F : forall s, fetch now0 now1 request s =
            match dispatch now1 request (cleanupInactiveUsers now0 s) with
            | Some r => r
            | None => (jsonResponse (Error "Internal server error") 500,
                       cleanupInactiveUsers now0 s)
            end).
  { intros s. unfold fetch. now rewrite M. }
  split; [apply F |]. split; [| split; [| split; [| split]]].
  - intros u d G. apply Map_get_In in G. subst st0.
    rewrite cleanup_is_sweep in G by exact WF. exact (sweep_fresh _ _ _ _ G).
  - intros d H. apply listActive_In in H as [k [d' [Hin E]]]. subst st0.
    rewrite cleanup_is_sweep in Hin by exact WF. rewrite E.
    exact (sweep_fresh _ _ _ _ Hin).
  - intros u d G X. unfold isActive, Map_has. subst st0.
    rewrite cleanup_is_sweep, sweep_get, G by exact WF.
    apply Z.gt_lt in X. apply Z.gtb_lt in X. now rewrite X.
  - intros st' E. rewrite (F st'), (F st). fold st0. now rewrite E.
  - rewrite (F st0), (F st). subst st0.
    now rewrite cleanup_idempotent by exact WF.
Qed.

Lemma Map_get_filter_absent {V : Type} (p : jsval * V -> bool) (m : Map V)
    (k : jsval) :
  Map_get m k = None -> Map_get (filter p m) k = None.
Proof.
  induction m as [| [k' v'] r IH]; simpl; [reflexivity |].
  same_key k' k; [discriminate |].
  intros G. destruct (p (k', v')); simpl;
    rewrite ?(SameValueZero_neq _ _ E); auto.
Qed.

Lemma cleanup_get_absent (now : Z) (st : State) (k : jsval) :
  Map_get (activeUsers st) k = None ->
  Map_get (activeUsers (cleanupInactiveUsers now st)) k = None.
Proof.
  intros G. unfold cleanupInactiveUsers; cbn [activeUsers].
  rewrite cleanup_loop. now apply Map_get_filter_absent.
Qed.

Lemma fetch_logout (now0 now1 : Z) (b : Body) (st : State) :
  fetch now0 now1 {| method := "POST"; pathname := "/logout"; body := b |} st =
  logout {| method := "POST"; pathname := "/logout"; body := b |}
    (cleanupInactiveUsers now0 st).
Proof. reflexivity. Qed.

Lemma fetch_logout_user (now0 now1 : Z) (u : jsval) (st : State) :
  truthy u = true ->
  fetch now0 now1 (POST "/logout" u) st =
  (jsonResponse Success 200,
   {| activeUsers := remove u (activeUsers (cleanupInactiveUsers now0 st));
      pendingNotifications := pendingNotifications st |}).
Proof.
  intros T. unfold POST. rewrite fetch_logout. unfold logout; cbn [body].
  now rewrite T.
Qed.

Lemma fetch_notify_present (now0 now1 : Z) (u : jsval) (st : State) :
  truthy u = true ->
  isActive (activeUsers (cleanupInactiveUsers now0 st)) u = true ->
  snd (fetch now0 now1 (POST "/notify" u) st) =
  {| activeUsers := activeUsers (cleanupInactiveUsers now0 st);
     pendingNotifications := setFor u now1 (pendingNotifications st) |}.
Proof.
  intros T H. unfold fetch, dispatch, notify.
  cbn [method pathname POST String.eqb Ascii.eqb Bool.eqb andb request_json body].
  unfold isActive in H. now rewrite T, H.
Qed.

(** C10.  The sweep leaves the mailbox as it is, and so does a logout: a
    pending notification is delivered by the next check whatever has become
    of the presence record.  A notification set for a present user is still
    delivered after the user has logged out, and after the user's record has
    expired and been swept. *)
Theorem sweep_leaves_mailbox (now : Z) (st : State) :
  pendingNotifications (cleanupInactiveUsers now st) = pendingNotifications st
  /\ (forall b now1,
        pendingNotifications
          (snd (fetch now now1
                  {| method := "POST"; pathname := "/logout"; body := b |} st))
        = pendingNotifications st)
  /\ (forall u n now1,
        truthy u = true ->
        Map_get (pendingNotifications st) u = Some n ->
        fst (fetch now now1 (POST "/check-notification" u) st) =
        jsonResponse (HasNotification n) 200)
  /\ (forall u t1 t2 t3 t4 t5,
        truthy u = true ->
        isActive (activeUsers (cleanupInactiveUsers now st)) u = true ->
        let notified := snd (fetch now t1 (POST "/notify" u) st) in
        let left := snd (fetch t2 t3 (POST "/logout" u) notified) in
        let r := fetch t4 t5 (POST "/check-notification" u) left in
        isActive (activeUsers (snd r)) u = false
        /\ fst r =
           jsonResponse
             (HasNotification {| type := lit "sound"; timestamp := t1 |}) 200)
  /\ (forall u t1 later t5,
        truthy u = true ->
        Map_wf (activeUsers st) ->
        isActive (activeUsers (cleanupInactiveUsers now st)) u = true ->
        let notified := snd (fetch now t1 (POST "/notify" u) st) in
        (forall d,
           Map_get (activeUsers notified) u = Some d ->
           later - lastSeen d > 10000) ->
        let r := fetch later t5 (POST "/check-notification" u) notified in
        isActive (activeUsers (snd r)) u = false
        /\ fst r =
           jsonResponse
             (HasNotification {| type := lit "sound"; timestamp := t1 |}) 200).
Proof.
  split; [reflexivity |]. split; [| split; [| split]].
  - intros b now1. rewrite fetch_logout. unfold logout; cbn [snd body].
    destruct b as [| | u]; try reflexivity. now destruct (truthy u).
  - intros u n now1 T G. rewrite fetch_check by exact T. now rewrite G.
  - intros u t1 t2 t3 t4 t5 T H. cbv zeta.
    rewrite (fetch_notify_present _ _ _ _ T H).
    rewrite (fetch_logout_user _ _ _ _ T). rewrite fetch_check by exact T.
    cbn [fst snd activeUsers pendingNotifications]. split.
    + unfold isActive, Map_has. rewrite cleanup_get_absent; [reflexivity |].
      cbn [activeUsers]. unfold remove. apply Map_get_delete_same.
    + unfold setFor. now rewrite Map_get_set_same.
  - intros u t1 later t5 T WF H. cbv zeta.
    rewrite (fetch_notify_present _ _ _ _ T H). intros X.
    rewrite fetch_check by exact T.
    cbn [fst snd activeUsers pendingNotifications]. split.
    + unfold isActive, Map_has. rewrite cleanup_is_sweep; cbn [activeUsers].
      * rewrite sweep_get.
        -- cbn [activeUsers] in X.
           destruct (Map_get _ u) as [d|] eqn:G; [| reflexivity].
           specialize (X d eq_refl).
           apply Z.gt_lt in X. apply Z.gtb_lt in X. now rewrite X.
        -- rewrite cleanup_is_sweep by exact WF. now apply Map_wf_filter.
      * rewrite cleanup_is_sweep by exact WF. now apply Map_wf_filter.
    + unfold setFor. now rewrite Map_get_set_same.
Qed.

(** * The claims at concrete inputs *)

Lemma sample_wf : Map_wf (activeUsers sample).
Proof.
  unfold Map_wf; simpl.
  repeat constructor; simpl; intuition discriminate.
Defined.

(** At time 15000 the sweep of [sample] drops [dave] (10001 ms) and keeps
    [bob] (exactly 10000 ms) and [carol]. *)
Lemma sweep_removes_exactly_expired_witness :
  Map_wf (activeUsers sample)
  /\ Map_keys (activeUsers (cleanupInactiveUsers 15000 sample)) = [bob; carol]
  /\ Map_get (activeUsers (cleanupInactiveUsers 15000 sample)) bob =
     Some {| username := bob; lastSeen := 5000; loginTime := 0 |}.
Proof.
  split; [exact sample_wf |].
  destruct (sweep_removes_exactly_expired 15000 sample sample_wf)
    as (E & _ & B & _).
  split.
  - rewrite E. reflexivity.
  - apply B; reflexivity.
Defined.

Lemma heartbeat_is_upsert_witness :
  truthy bob = true
  /\ fst (fetch 15000 15200 (POST "/heartbeat" bob) sample) =
     jsonResponse Success 200
  /\ Map_get
       (activeUsers (snd (fetch 15000 15200 (POST "/heartbeat" bob) sample)))
       bob =
     Some {| username := bob; lastSeen := 15200; loginTime := 0 |}
  /\ Map_get
       (activeUsers (snd (fetch 15000 15200 (POST "/heartbeat" dave) sample)))
       dave =
     Some {| username := dave; lastSeen := 15200; loginTime := 15200 |}.
Proof.
  split; [reflexivity |].
  destruct (heartbeat_is_upsert 15000 15200 bob sample eq_refl)
    as (R & _ & _ & K & _).
  destruct (heartbeat_is_upsert 15000 15200 dave sample eq_refl)
    as (_ & _ & U & _).
  split; [exact R |]. split.
  - apply (K {| username := bob; lastSeen := 5000; loginTime := 0 |}).
    reflexivity.
  - apply U. reflexivity.
Defined.

Lemma take_after_set_consumes_once_witness :
  truthy carol = true
  /\ Map_has (pendingNotifications sample) carol = false
  /\ fst (takeFor carol (setFor carol 7000 (pendingNotifications sample))) =
     Some {| type := lit "sound"; timestamp := 7000 |}
  /\ fetch 15000 15200 (POST "/check-notification" carol) sample =
     (jsonResponse NoNotification 200, cleanupInactiveUsers 15000 sample).
Proof.
  split; [reflexivity |]. split; [reflexivity |].
  destruct (take_after_set_consumes_once carol 7000
              (pendingNotifications sample) eq_refl)
    as (F & _ & _ & _ & _ & N).
  split; [exact F |].
  apply N. reflexivity.
Defined.

Lemma mailbox_single_slot_witness :
  reachable (snd (fetch 1000 1000 (POST "/heartbeat" bob) initial))
  /\ (occurrences
        (setFor bob 3000
           (setFor bob 2000
              (pendingNotifications
                 (snd (fetch 1000 1000 (POST "/heartbeat" bob) initial)))))
        bob = 1)%nat.
Proof.
  assert (R : reachable (snd (fetch 1000 1000 (POST "/heartbeat" bob) initial)))
    by apply reachable_fetch, reachable_initial.
  split; [exact R |].
  destruct (mailbox_single_slot _ R) as (_ & S).
  apply (S bob 2000 3000).
Defined.

Lemma notify_requires_presence_witness :
  truthy dave = true
  /\ isActive (activeUsers (cleanupInactiveUsers 15000 sample)) dave = false
  /\ fetch 15000 15200 (POST "/notify" dave) sample =
     (jsonResponse (Failure "User not found") 404,
      cleanupInactiveUsers 15000 sample).
Proof.
  split; [reflexivity |]. split; [reflexivity |].
  destruct (notify_requires_presence 15000 15200 dave sample eq_refl)
    as (_ & A & _).
  apply A. reflexivity.
Defined.

Lemma broadcast_notifies_snapshot_witness :
  isActive (activeUsers (cleanupInactiveUsers 15000 sample)) carol = true
  /\ fst (fetch 15000 15200
            {| method := "POST"; pathname := "/notify-all"; body := Empty |}
            sample) = jsonResponse (Notified 2) 200
  /\ Map_get
       (pendingNotifications
          (snd (fetch 15000 15200
                  {| method := "POST"; pathname := "/notify-all";
                     body := Empty |} sample))) carol =
     Some {| type := lit "sound"; timestamp := 15200 |}.
Proof.
  split; [reflexivity |].
  destruct (broadcast_notifies_snapshot 15000 15200 Empty sample)
    as (C & _ & _ & P & _).
  split; [exact C |].
  apply P. reflexivity.
Defined.

Lemma login_trims_and_validates_witness :
  blank (JString (lit "   ")) = true
  /\ fetch 15000 15200 (POST "/login" (JString (lit "   "))) sample =
     (jsonResponse (Failure "Invalid username") 400,
      cleanupInactiveUsers 15000 sample).
Proof.
  split; [reflexivity |].
  destruct (login_trims_and_validates 15000 15200 sample)
    as (_ & _ & _ & B & _).
  apply B. reflexivity.
Defined.

Lemma sweep_runs_first_witness :
  Map_wf (activeUsers sample)
  /\ (method (GET "/users") =? "OPTIONS")%string = false
  /\ isActive (activeUsers (cleanupInactiveUsers 15000 sample)) dave = false.
Proof.
  split; [exact sample_wf |]. split; [reflexivity |].
  destruct (sweep_runs_first 15000 15200 (GET "/users") sample sample_wf
              eq_refl) as (_ & _ & _ & X & _).
  apply (X dave {| username := dave; lastSeen := 4999; loginTime := 0 |});
    [reflexivity | simpl; lia].
Defined.

Lemma sweep_leaves_mailbox_witness :
  truthy bob = true
  /\ Map_get (pendingNotifications sample) bob =
     Some {| type := lit "sound"; timestamp := 4000 |}
  /\ fst (fetch 30000 30200 (POST "/check-notification" bob) sample) =
     jsonResponse
       (HasNotification {| type := lit "sound"; timestamp := 4000 |}) 200.
Proof.
  split; [reflexivity |]. split; [reflexivity |].
  destruct (sweep_leaves_mailbox 30000 sample) as (_ & _ & D & _).
  apply D; reflexivity.
Defined.

(** * Further properties of the routes *)

(** ** Properties of the stored entries that every request keeps *)

Lemma Forall_Map_set {V : Type} (P : jsval * V -> Prop) (m : Map V)
    (k : jsval) (v : V) :
  Forall P m -> P (k, v) -> Forall P (Map_set m k v).
Proof.
  intros F Pv. induction m as [| [k' v'] r IH]; simpl.
  - now constructor.
  - inversion F as [| ? ? Ph Ft]; subst.
    same_key k' k; constructor; auto.
Qed.

Lemma Forall_Map_mutate {V : Type} (P : jsval * V -> Prop) (m : Map V)
    (k : jsval) (f : V -> V) :
  Forall P m -> (forall v, P (k, v) -> P (k, f v)) ->
  Forall P (Map_mutate m k f).
Proof.
  intros F Pf. induction m as [| [k' v'] r IH]; simpl; [constructor |].
  inversion F as [| ? ? Ph Ft]; subst.
  same_key k' k; constructor; auto.
Qed.

Lemma Forall_filter_keep {A : Type} (P : A -> Prop) (p : A -> bool)
    (l : list A) :
  Forall P l -> Forall P (filter p l).
Proof.
  rewrite !Forall_forall. intros F x Hx.
  apply filter_In in Hx as [Hx _]. now apply F.
Qed.

Lemma cleanup_Forall (P : jsval * User -> Prop) (now : Z) (st : State) :
  Forall P (activeUsers st) ->
  Forall P (activeUsers (cleanupInactiveUsers now st)).
Proof.
  intros F. unfold cleanupInactiveUsers; cbn [activeUsers].
  rewrite cleanup_loop. now apply Forall_filter_keep.
Qed.

Lemma truthy_trimmed (s : jsstring) :
  isEmpty (trim s) = false -> truthy (JString (trim s)) = true.
Proof. simpl. now destruct (trim s). Qed.

Section RegistryEntries.
Variable P : jsval * User -> Prop.
Variable now : Z.
Hypothesis P_new :
  forall k, truthy k = true ->
            P (k, {| username := k; lastSeen := now; loginTime := now |}).
Hypothesis P_touch : forall k d, P (k, d) -> P (k, touch now d).

Lemma dispatch_registry_Forall (request : Request) (st : State) r :
  Forall P (activeUsers st) ->
  dispatch now request st = Some r -> Forall P (activeUsers (snd r)).
Proof.
  intros F. unfold dispatch.
  repeat match goal with |- context [if ?c then _ else _] => destruct c end.
  - unfold login. destruct (request_json request) as [[]|]; try discriminate;
      try (intros [= <-]; assumption).
    destruct (negb (truthy (JString s))) eqn:T; cbn [orb];
      [intros [= <-]; assumption |].
    destruct (isEmpty (trim s)) eqn:B; [intros [= <-]; assumption |].
    cbv zeta. destruct (jsstring_eqb _ _); intros [= <-];
      cbn [negb snd activeUsers]; [assumption |].
    unfold register. apply Forall_Map_set; [assumption |].
    apply P_new. now apply truthy_trimmed.
  - unfold heartbeat. destruct (request_json request) as [u|]; [| discriminate].
    destruct (truthy u) eqn:T; cbn [negb]; intros [= <-];
      cbn [snd activeUsers]; [| assumption].
    unfold registerOrTouch. destruct (Map_has _ _).
    + apply Forall_Map_mutate; auto.
    + apply Forall_Map_set; auto.
  - intros [= <-]. unfold logout; cbn [snd].
    destruct (body request) as [| | u]; try assumption.
    destruct (truthy u); cbn [activeUsers]; [| assumption].
    unfold remove, Map_delete. now apply Forall_filter_keep.
  - intros [= <-]. assumption.
  - unfold notify. destruct (request_json request) as [u|]; [| discriminate].
    destruct (negb _); [intros [= <-]; assumption |].
    destruct (Map_has _ _); intros [= <-]; assumption.
  - intros [= <-]. unfold notifyAll.
    destruct (broadcastToAllPresent _ _ _) as [pn c]. assumption.
  - unfold checkNotification.
    destruct (request_json request) as [u|]; [| discriminate].
    destruct (negb _); [intros [= <-]; assumption |].
    destruct (takeFor _ _) as [[n|] pn]; intros [= <-]; assumption.
  - intros [= <-]. assumption.
  - intros [= <-]. assumption.
Qed.

Lemma fetch_registry_Forall (now0 : Z) (request : Request) (st : State) :
  Forall P (activeUsers st) ->
  Forall P (activeUsers (snd (fetch now0 now request st))).
Proof.
  intros F. unfold fetch.
  destruct (method request =? "OPTIONS")%string; [exact F |].
  apply (cleanup_Forall _ now0) in F.
  destruct (dispatch _ _ _) as [r|] eqn:D; [| exact F].
  exact (dispatch_registry_Forall _ _ _ F D).
Qed.
End RegistryEntries.

Lemma broadcast_Forall (Q : jsval * Notification -> Prop) (now : Z)
    (au : Map User) (pn : Map Notification) :
  (forall k, Q (k, {| type := lit "sound"; timestamp := now |})) ->
  Forall Q pn -> Forall Q (fst (broadcastToAllPresent now au pn)).
Proof.
  intros Qn. unfold broadcastToAllPresent, Map_entries.
  rewrite broadcast_loop; simpl.
  revert pn. induction au as [| [k' d] r IH]; intros pn F; simpl; [exact F |].
  apply IH. unfold setFor. now apply Forall_Map_set.
Qed.

Lemma fetch_mailbox_Forall (Q : jsval * Notification -> Prop)
    (now0 now : Z) (request : Request) (st : State) :
  (forall k, Q (k, {| type := lit "sound"; timestamp := now |})) ->
  Forall Q (pendingNotifications st) ->
  Forall Q (pendingNotifications (snd (fetch now0 now request st))).
Proof.
  intros Qn F. unfold fetch.
  destruct (method request =? "OPTIONS")%string; [exact F |].
  destruct (dispatch _ _ _) as [r|] eqn:D; [| exact F].
  revert D. unfold dispatch.
  repeat match goal with |- context [if ?c then _ else _] => destruct c end.
  - unfold login. destruct (request_json request) as [[]|]; try discriminate;
      try (intros [= <-]; assumption).
    destruct (_ || _); [intros [= <-]; assumption |].
    cbv zeta. destruct (jsstring_eqb _ _); intros [= <-]; assumption.
  - unfold heartbeat. destruct (request_json request) as [u|]; [| discriminate].
    destruct (negb _); intros [= <-]; assumption.
  - intros [= <-]. unfold logout; cbn [snd].
    destruct (body request) as [| | u]; try assumption.
    destruct (truthy u); assumption.
  - intros [= <-]. assumption.
  - unfold notify. destruct (request_json request) as [u|]; [| discriminate].
    destruct (negb _); [intros [= <-]; assumption |].
    destruct (Map_has _ _); intros [= <-]; [| assumption].
    cbn [snd pendingNotifications]. unfold setFor.
    now apply Forall_Map_set.
  - intros [= <-]. unfold notifyAll.
    pose proof (broadcast_Forall Q now
                  (activeUsers (cleanupInactiveUsers now0 st))
                  (pendingNotifications (cleanupInactiveUsers now0 st)) Qn F)
      as B.
    destruct (broadcastToAllPresent _ _ _) as [pn c]. exact B.
  - unfold checkNotification.
    destruct (request_json request) as [u|]; [| discriminate].
    destruct (negb _); [intros [= <-]; assumption |].
    rewrite takeFor_spec.
    destruct (Map_get _ _); intros [= <-]; cbn [snd pendingNotifications];
      unfold Map_delete; now apply Forall_filter_keep.
  - intros [= <-]. assumption.
  - intros [= <-]. assumption.
Qed.

(** ** Invariants of the reachable states *)

Lemma reachable_keyed (st : State) :
  reachable st ->
  Forall (fun e => username (snd e) = fst e /\ truthy (fst e) = true)
    (activeUsers st).
Proof.
  induction 1 as [| now0 now1 request st _ IH]; [constructor |].
  apply fetch_registry_Forall; [| | exact IH].
  - intros k T. now split.
  - intros k d H. exact H.
Qed.

(** X1.  In every reachable state each record of the registry is stored
    under its own [username] field, and no falsy value is a key. *)
Theorem reachable_records_keyed (st : State) (R : reachable st) :
  forall k d,
    Map_get (activeUsers st) k = Some d ->
    username d = k /\ truthy k = true.
Proof.
  intros k d G. apply Map_get_In in G.
  pose proof (reachable_keyed st R) as F.
  rewrite Forall_forall in F. exact (F _ G).
Qed.

Lemma bob_online_reachable : reachable bob_online.
Proof. apply reachable_fetch, reachable_initial. Defined.

Lemma bob_notified_reachable : reachable bob_notified.
Proof. apply reachable_fetch, bob_online_reachable. Defined.

Lemma reachable_records_keyed_witness :
  reachable bob_online
  /\ Map_get (activeUsers bob_online) bob =
     Some {| username := bob; lastSeen := 1000; loginTime := 1000 |}
  /\ username {| username := bob; lastSeen := 1000; loginTime := 1000 |} = bob.
Proof.
  pose proof bob_online_reachable as R.
  split; [exact R |]. split; [reflexivity |].
  apply (reachable_records_keyed _ R bob). reflexivity.
Defined.

(** X2.  In every reachable state every pending notification is of type
    ['sound']. *)
Theorem reachable_notifications_sound (st : State) (R : reachable st) :
  forall k n,
    Map_get (pendingNotifications st) k = Some n -> type n = lit "sound".
Proof.
  assert (F : Forall (fun e => type (snd e) = lit "sound")
                (pendingNotifications st)).
  { induction R as [| now0 now1 request st _ IH]; [constructor |].
    apply fetch_mailbox_Forall; [reflexivity | exact IH]. }
  intros k n G. apply Map_get_In in G.
  rewrite Forall_forall in F. exact (F _ G).
Qed.

Lemma reachable_notifications_sound_witness :
  reachable bob_notified
  /\ Map_get (pendingNotifications bob_notified) bob =
     Some {| type := lit "sound"; timestamp := 2000 |}
  /\ type {| type := lit "sound"; timestamp := 2000 |} = lit "sound".
Proof.
  pose proof bob_notified_reachable as R.
  split; [exact R |]. split; [reflexivity |].
  apply (reachable_notifications_sound _ R bob). reflexivity.
Defined.




(** ** [/users] and [/health] *)

Lemma listActive_values (m : Map User) : listActive m = Map_values m.
Proof.
  unfold listActive. rewrite <- (map_id (Map_values m)) at 2.
  apply map_ext. now intros [].
Qed.

(** X4.  [GET /users] answers 200 with the records of the swept registry in
    insertion order and their number, and changes nothing but the sweep; in
    a reachable state the listed usernames are the keys of the registry and
    no username is listed twice. *)
Theorem users_lists_swept_registry (now0 now1 : Z) (b : Body) (st : State)
    (R : reachable st) :
  let st0 := cleanupInactiveUsers now0 st in
  let listed := Map_values (activeUsers st0) in
  fetch now0 now1 {| method := "GET"; pathname := "/users"; body := b |} st =
  (jsonResponse (UserList listed (Map_size (activeUsers st0))) 200, st0)
  /\ List.map username listed = Map_keys (activeUsers st0)
  /\ NoDup (List.map username listed).
Proof.
  intros st0 listed.
  assert (R0 : reachable st0).
  { change st0 with (snd (fetch now0 now1 (GET "/health") st)).
    now apply reachable_fetch. }
  assert (K : List.map username listed = Map_keys (activeUsers st0)).
  { subst listed. unfold Map_values, Map_keys. rewrite map_map.
    apply map_ext_in. intros [k d] Hin. simpl.
    apply reachable_wf in R0 as W. destruct W as [W _].
    pose proof (reachable_keyed st0 R0) as F.
    rewrite Forall_forall in F. now apply (F (k, d)). }
  split; [| split; [exact K |]].
  - unfold fetch, dispatch, users. cbn [method pathname String.eqb Ascii.eqb
      Bool.eqb andb]. fold st0. rewrite listActive_values.
    unfold Map_values, Map_size. now rewrite length_map.
  - rewrite K. apply reachable_wf in R0. apply R0.
Qed.

Lemma users_lists_swept_registry_witness :
  reachable bob_online
  /\ fst (fetch 2000 2000 (GET "/users") bob_online) =
     jsonResponse
       (UserList [{| username := bob; lastSeen := 1000; loginTime := 1000 |}] 1)
       200.
Proof.
  pose proof bob_online_reachable as R.
  split; [exact R |].
  destruct (users_lists_swept_registry 2000 2000 Empty _ R) as (E & _).
  unfold GET. rewrite E. reflexivity.
Defined.

(** X5.  [/health] answers to every method other than the preflight's, with
    the size of the swept registry, which is also the [count] of [/users]
    and the [notified] of [/notify-all] at the same instant; it changes
    nothing but the sweep. *)
Theorem health_counts_swept_registry (now0 now1 : Z) (m : string) (b : Body)
    (st : State) (M : (m =? "OPTIONS")%string = false) :
  let st0 := cleanupInactiveUsers now0 st in
  let n := Map_size (activeUsers st0) in
  fetch now0 now1 {| method := m; pathname := "/health"; body := b |} st =
  (jsonResponse (Health n) 200, st0)
  /\ (exists listed,
        fst (fetch now0 now1 (GET "/users") st) =
        jsonResponse (UserList listed n) 200)
  /\ fst (fetch now0 now1
            {| method := "POST"; pathname := "/notify-all"; body := b |} st) =
     jsonResponse (Notified n) 200.
Proof.
  intros st0 n. split; [| split].
  - unfold fetch. cbn [method]. rewrite M. unfold dispatch, health.
    cbn [pathname String.eqb Ascii.eqb Bool.eqb andb]. reflexivity.
  - exists (listActive (activeUsers st0)).
    unfold fetch, dispatch, users. cbn [method pathname GET String.eqb
      Ascii.eqb Bool.eqb andb fst]. fold st0.
    rewrite listActive_values. unfold Map_values. now rewrite length_map.
  - rewrite fetch_notifyAll. cbn [fst]. now rewrite broadcast_count.
Qed.

Lemma health_counts_swept_registry_witness :
  ("DELETE" =? "OPTIONS")%string = false
  /\ fetch 15000 15200
       {| method := "DELETE"; pathname := "/health"; body := Malformed |}
       sample =
     (jsonResponse (Health 2) 200, cleanupInactiveUsers 15000 sample).
Proof.
  split; [reflexivity |].
  destruct (health_counts_swept_registry 15000 15200 "DELETE" Malformed sample
              eq_refl) as (E & _).
  rewrite E. reflexivity.
Defined.

(** ** More on the sweep *)

Lemma cleanup_eq (now : Z) (st : State) :
  Map_wf (activeUsers st) ->
  cleanupInactiveUsers now st =
  {| activeUsers := sweep now (activeUsers st);
     pendingNotifications := pendingNotifications st |}.
Proof. intros W. rewrite <- (cleanup_is_sweep now st W). reflexivity. Qed.

(** X6.  A sweep makes every earlier sweep redundant: sweeping at [t1] and
    then at a later [t2] leaves the same state as sweeping at [t2] alone. *)
Theorem later_sweep_subsumes (t1 t2 : Z) (st : State)
    (WF : Map_wf (activeUsers st)) (L : t1 <= t2) :
  cleanupInactiveUsers t2 (cleanupInactiveUsers t1 st) =
  cleanupInactiveUsers t2 st.
Proof.
  rewrite (cleanup_eq t2 (cleanupInactiveUsers t1 st)).
  - rewrite cleanup_pending, cleanup_is_sweep by exact WF.
    rewrite (cleanup_eq t2 st WF). f_equal.
    unfold sweep. rewrite filter_filter. apply filter_ext.
    intros [k d]; simpl. unfold expired, TTL.
    destruct (t2 - lastSeen d >? 10000) eqn:X2; simpl.
    + apply andb_false_r.
    + destruct (t1 - lastSeen d >? 10000) eqn:X1; [| reflexivity].
      rewrite Z.gtb_ltb in X1, X2. apply Z.ltb_lt in X1. apply Z.ltb_ge in X2.
      lia.
  - rewrite cleanup_is_sweep by exact WF. now apply Map_wf_filter.
Qed.

Lemma later_sweep_subsumes_witness :
  Map_wf (activeUsers sample) /\ 15000 <= 15001
  /\ Map_keys
       (activeUsers
          (cleanupInactiveUsers 15001 (cleanupInactiveUsers 15000 sample))) =
     [carol].
Proof.
  split; [exact sample_wf |]. split; [lia |].
  rewrite (later_sweep_subsumes 15000 15001 sample sample_wf); [reflexivity |].
  lia.
Defined.

Lemma cleanup_size_le (now : Z) (st : State) :
  (Map_size (activeUsers (cleanupInactiveUsers now st))
   <= Map_size (activeUsers st))%nat.
Proof.
  unfold cleanupInactiveUsers, Map_entries; cbn [activeUsers].
  rewrite cleanup_loop. apply filter_length_le.
Qed.

(** X7.  The sweep never adds a record, and it leaves the whole state as it
    is when no record is older than 10000 ms. *)
Theorem sweep_spares_fresh_registry (now : Z) (st : State) :
  (Map_size (activeUsers (cleanupInactiveUsers now st))
   <= Map_size (activeUsers st))%nat
  /\ ((forall k d, In (k, d) (activeUsers st) -> now - lastSeen d <= 10000) ->
      cleanupInactiveUsers now st = st).
Proof.
  unfold cleanupInactiveUsers, Map_entries; cbn [activeUsers].
  rewrite cleanup_loop. split; [apply filter_length_le |].
  intros Fresh. destruct st as [au pn]; cbn [activeUsers pendingNotifications] in *.
  f_equal. apply forallb_filter_id. apply forallb_forall.
  intros [k d] Hin; simpl. apply negb_true_iff.
  destruct (existsb _ au) eqn:Ex; [| reflexivity].
  apply existsb_exists in Ex as [[k' d'] [Hin' H]]; simpl in H.
  apply andb_true_iff in H as [X _]. unfold expired, TTL in X.
  rewrite Z.gtb_ltb in X. apply Z.ltb_lt in X.
  specialize (Fresh _ _ Hin'). lia.
Qed.

Lemma sweep_spares_fresh_registry_witness :
  (forall k d, In (k, d) (activeUsers sample) -> 14999 - lastSeen d <= 10000)
  /\ cleanupInactiveUsers 14999 sample = sample.
Proof.
  assert (F : forall k d, In (k, d) (activeUsers sample) ->
                          14999 - lastSeen d <= 10000).
  { intros k d H. simpl in H.
    destruct H as [H | [H | [H | []]]]; inversion H; subst; simpl; lia. }
  split; [exact F |].
  apply (proj2 (sweep_spares_fresh_registry 14999 sample) F).
Defined.

(** ** Sessions *)

(** X8.  A heartbeat at [now] keeps the user present for 10000 ms: the
    sweep of a later request finds the user present exactly when it runs at
    most 10000 ms after [now]. *)
Theorem heartbeat_extends_presence (now0 now later : Z) (u : jsval)
    (st : State) (WF : Map_wf (activeUsers st)) (T : truthy u = true) :
  let st1 := snd (fetch now0 now (POST "/heartbeat" u) st) in
  isActive (activeUsers (cleanupInactiveUsers later st1)) u =
  (later - now <=? 10000).
Proof.
  cbv zeta. rewrite fetch_heartbeat by exact T.
  assert (W : Map_wf (registerOrTouch u now
                        (activeUsers (cleanupInactiveUsers now0 st)))).
  { apply registerOrTouch_wf. rewrite cleanup_is_sweep by exact WF.
    now apply Map_wf_filter. }
  unfold isActive, Map_has. rewrite cleanup_is_sweep by exact W.
  cbn [snd activeUsers]. rewrite sweep_get by exact W.
  rewrite registerOrTouch_get_same.
  rewrite Z.leb_antisym.
  destruct (Map_get _ u); cbn [touch lastSeen]; rewrite Z.gtb_ltb;
    now destruct (10000 <? later - now).
Qed.

Lemma heartbeat_extends_presence_witness :
  Map_wf (activeUsers sample) /\ truthy bob = true
  /\ isActive
       (activeUsers
          (cleanupInactiveUsers 25200
             (snd (fetch 15000 15200 (POST "/heartbeat" bob) sample)))) bob =
     true
  /\ isActive
       (activeUsers
          (cleanupInactiveUsers 25201
             (snd (fetch 15000 15200 (POST "/heartbeat" bob) sample)))) bob =
     false.
Proof.
  split; [exact sample_wf |]. split; [reflexivity |]. split.
  - rewrite (heartbeat_extends_presence 15000 15200 25200 bob sample sample_wf
               eq_refl). reflexivity.
  - rewrite (heartbeat_extends_presence 15000 15200 25201 bob sample sample_wf
               eq_refl). reflexivity.
Defined.

(** X9.  A login of an accepted username other than the admin's rewrites
    that user's record alone: a present user keeps its place in the
    registry, a new one is appended, every other record is as the sweep left
    it, and the mailbox is untouched. *)
Theorem login_registers_in_place (now0 now : Z) (s : jsstring) (st : State)
    (B : blank (JString s) = false) (N : trim s <> ADMIN_USERNAME) :
  let st0 := cleanupInactiveUsers now0 st in
  let u := JString (trim s) in
  let st1 := snd (fetch now0 now (POST "/login" (JString s)) st) in
  Map_keys (activeUsers st1) =
  (if isActive (activeUsers st0) u then Map_keys (activeUsers st0)
   else Map_keys (activeUsers st0) ++ [u])
  /\ (forall k, k <> u ->
        Map_get (activeUsers st1) k = Map_get (activeUsers st0) k)
  /\ pendingNotifications st1 = pendingNotifications st.
Proof.
  cbv zeta. simpl in B. rewrite fetch_login_accept by exact B. cbv zeta.
  unfold jsstring_eqb.
  destruct (list_eq_dec N.eq_dec (trim s) ADMIN_USERNAME); [contradiction |].
  cbn [snd activeUsers pendingNotifications]. unfold register, isActive.
  split; [apply Map_keys_set |]. split; [| reflexivity].
  intros k K. now apply Map_get_set_other.
Qed.

Lemma login_registers_in_place_witness :
  blank (JString (lit " bob ")) = false
  /\ trim (lit " bob ") <> ADMIN_USERNAME
  /\ Map_keys
       (activeUsers
          (snd (fetch 15000 15200 (POST "/login" (JString (lit " bob ")))
                  sample))) = [bob; carol].
Proof.
  assert (N : trim (lit " bob ") <> ADMIN_USERNAME) by discriminate.
  split; [reflexivity |]. split; [exact N |].
  destruct (login_registers_in_place 15000 15200 (lit " bob ") sample
              eq_refl N) as (K & _).
  rewrite K. reflexivity.
Defined.

(** X10.  A login whose trimmed username is the admin's is answered with
    [isAdmin: true] and writes nothing: the state is the swept one. *)
Theorem login_admin_is_flag_only (now0 now : Z) (s : jsstring) (st : State)
    (A : trim s = ADMIN_USERNAME) :
  fetch now0 now (POST "/login" (JString s)) st =
  (jsonResponse (LoginOk true ADMIN_USERNAME) 200,
   cleanupInactiveUsers now0 st).
Proof.
  assert (B : forallb isWhiteSpace s = false).
  { destruct (forallb isWhiteSpace s) eqn:W; [| reflexivity].
    apply trim_blank in W. rewrite W in A. discriminate. }
  rewrite fetch_login_accept by exact B. cbv zeta. rewrite A.
  reflexivity.
Qed.

Lemma login_admin_is_flag_only_witness :
  trim (lit "  admin0707 ") = ADMIN_USERNAME
  /\ fetch 15000 15200 (POST "/login" (JString (lit "  admin0707 "))) sample =
     (jsonResponse (LoginOk true ADMIN_USERNAME) 200,
      cleanupInactiveUsers 15000 sample).
Proof.
  split; [reflexivity |].
  apply (login_admin_is_flag_only 15000 15200 (lit "  admin0707 ") sample).
  reflexivity.
Defined.

(** ** Which route writes what *)

Ltac on_path p tac :=
  destruct (String.eqb_spec p "/login") as [-> | ?]; [tac |
  destruct (String.eqb_spec p "/heartbeat") as [-> | ?]; [tac |
  destruct (String.eqb_spec p "/logout") as [-> | ?]; [tac |
  destruct (String.eqb_spec p "/users") as [-> | ?]; [tac |
  destruct (String.eqb_spec p "/notify") as [-> | ?]; [tac |
  destruct (String.eqb_spec p "/notify-all") as [-> | ?]; [tac |
  destruct (String.eqb_spec p "/check-notification") as [-> | ?]; [tac |
  destruct (String.eqb_spec p "/health") as [-> | ?]; [tac | tac]]]]]]]].

Ltac on_method m tac :=
  destruct (String.eqb_spec m "OPTIONS") as [-> | ?]; [tac |
  destruct (String.eqb_spec m "POST") as [-> | ?]; [tac |
  destruct (String.eqb_spec m "GET") as [-> | ?]; [tac | tac]]].

Ltac compare_strings :=
  cbn [String.eqb Ascii.eqb Bool.eqb andb orb negb].

Lemma fetch_registry_frame (now0 now1 : Z) (request : Request) (st : State) :
  (method request =? "OPTIONS")%string = false ->
  ((pathname request =? "/login") || (pathname request =? "/heartbeat")
   || (pathname request =? "/logout"))%string = false ->
  activeUsers (snd (fetch now0 now1 request st)) =
  activeUsers (cleanupInactiveUsers now0 st).
Proof.
  intros M H.
  destruct request as [m p b]. cbn [method pathname] in *.
  unfold fetch, dispatch. cbn [method pathname]. rewrite M. clear M.
  revert H.
  on_path p ltac:(compare_strings; try discriminate; intros _);
    on_method m ltac:(compare_strings; try reflexivity).
  all: unfold notify, notifyAll, checkNotification, request_json; cbn [body].
  all: try (destruct b as [| | u]; try reflexivity;
            destruct (truthy u); cbn [negb]; try reflexivity).
  all: try (destruct (Map_has _ _); reflexivity).
  all: try (destruct (broadcastToAllPresent _ _ _); reflexivity).
  all: destruct (takeFor _ _) as [[?|] ?]; reflexivity.
Qed.

(** X12.  Only [/login], [/heartbeat] and [/logout] write the registry:
    after any other request that is not a preflight the registry is the
    swept one.  Polling [/check-notification], in particular, does not
    refresh [lastSeen]. *)
Theorem registry_written_by_three_routes (now0 now1 : Z) (request : Request)
    (st : State)
    (M : (method request =? "OPTIONS")%string = false)
    (H : ((pathname request =? "/login") || (pathname request =? "/heartbeat")
          || (pathname request =? "/logout"))%string = false) :
  activeUsers (snd (fetch now0 now1 request st)) =
  activeUsers (cleanupInactiveUsers now0 st).
Proof. exact (fetch_registry_frame now0 now1 request st M H). Qed.

Lemma registry_written_by_three_routes_witness :
  (method (POST "/check-notification" dave) =? "OPTIONS")%string = false
  /\ activeUsers
       (snd (fetch 15000 15200 (POST "/check-notification" dave) sample)) =
     activeUsers (cleanupInactiveUsers 15000 sample)
  /\ isActive
       (activeUsers
          (snd (fetch 15000 15200 (POST "/check-notification" dave) sample)))
       dave = false.
Proof.
  split; [reflexivity |].
  pose proof (registry_written_by_three_routes 15000 15200
                (POST "/check-notification" dave) sample eq_refl eq_refl) as E.
  split; [exact E |]. rewrite E. reflexivity.
Defined.

Lemma fetch_mailbox_frame (now0 now1 : Z) (request : Request) (st : State) :
  ((pathname request =? "/notify") || (pathname request =? "/notify-all")
   || (pathname request =? "/check-notification"))%string = false ->
  pendingNotifications (snd (fetch now0 now1 request st)) =
  pendingNotifications st.
Proof.
  intros H.
  destruct request as [m p b]. cbn [pathname] in *.
  unfold fetch, dispatch. cbn [method pathname].
  revert H.
  on_path p ltac:(compare_strings; try discriminate; intros _);
    on_method m ltac:(compare_strings; try reflexivity).
  all: unfold login, heartbeat, logout, request_json; cbn [body].
  all: destruct b as [| | u]; try reflexivity.
  all: try (destruct (truthy u); reflexivity).
  destruct u; try reflexivity.
  destruct (_ || _); [reflexivity |].
  cbv zeta. now destruct (jsstring_eqb _ _).
Qed.

(** X13.  Only [/notify], [/notify-all] and [/check-notification] touch the
    mailbox: every other request leaves it as it is. *)
Theorem mailbox_written_by_three_routes (now0 now1 : Z) (request : Request)
    (st : State)
    (H : ((pathname request =? "/notify")
          || (pathname request =? "/notify-all")
          || (pathname request =? "/check-notification"))%string = false) :
  pendingNotifications (snd (fetch now0 now1 request st)) =
  pendingNotifications st.
Proof. exact (fetch_mailbox_frame now0 now1 request st H). Qed.

Lemma mailbox_written_by_three_routes_witness :
  pendingNotifications (snd (fetch 30000 30200 (POST "/logout" bob) sample)) =
  pendingNotifications sample.
Proof.
  apply (mailbox_written_by_three_routes 30000 30200 (POST "/logout" bob)
           sample).
  reflexivity.
Defined.

Lemma Map_has_set {V : Type} (m : Map V) (k k0 : jsval) (v : V) :
  Map_has m k0 = true -> Map_has (Map_set m k v) k0 = true.
Proof.
  unfold Map_has. intros H. destruct (jsval_eq_dec k0 k) as [-> | N].
  - now rewrite Map_get_set_same.
  - now rewrite Map_get_set_other.
Qed.

(** X14.  A pending notification stays pending until its own username is
    polled: whatever the request, if it is not a [/check-notification] for
    [k], a notification waiting for [k] is still waiting afterwards. *)
Theorem notification_waits_for_its_poll (now0 now1 : Z) (request : Request)
    (st : State) (k : jsval)
    (P : Map_has (pendingNotifications st) k = true)
    (H : pathname request = "/check-notification"%string ->
         request_json request <> Some k) :
  Map_has (pendingNotifications (snd (fetch now0 now1 request st))) k = true.
Proof.
  destruct (((pathname request =? "/notify")
             || (pathname request =? "/notify-all")
             || (pathname request =? "/check-notification"))%string) eqn:E.
  - destruct request as [m p b]. cbn [pathname] in *.
    unfold fetch, dispatch. cbn [method pathname].
    revert E H.
    on_path p ltac:(compare_strings; try discriminate; intros _ H);
      on_method m ltac:(compare_strings; try exact P).
    + unfold notify, request_json; cbn [body].
      destruct b as [| | u]; try exact P.
      destruct (truthy u); cbn [negb]; [| exact P].
      destruct (Map_has (activeUsers _) u); [| exact P].
      cbn [snd pendingNotifications]. unfold setFor. now apply Map_has_set.
    + unfold notifyAll.
      destruct (broadcastToAllPresent _ _ _) as [pn c] eqn:B.
      cbn [snd pendingNotifications].
      replace pn with
        (fst (broadcastToAllPresent now1
                (activeUsers (cleanupInactiveUsers now0 st))
                (pendingNotifications (cleanupInactiveUsers now0 st))))
        by now rewrite B.
      unfold Map_has at 1. rewrite broadcast_get.
      destruct (Map_has (activeUsers (cleanupInactiveUsers now0 st)) k);
        [reflexivity |].
      exact P.
    + unfold checkNotification, request_json in *; cbn [body] in *.
      destruct b as [| | u]; try exact P.
      destruct (truthy u); cbn [negb]; [| exact P].
      rewrite takeFor_spec.
      assert (N : k <> u) by (intros ->; now apply H).
      assert (G : Map_has (Map_delete (pendingNotifications st) u) k = true).
      { unfold Map_has in *. now rewrite Map_get_delete_other. }
      now destruct (Map_get _ u).
  - now rewrite fetch_mailbox_frame.
Qed.

Lemma notification_waits_for_its_poll_witness :
  Map_has (pendingNotifications sample) bob = true
  /\ (pathname (POST "/check-notification" carol)
      = "/check-notification"%string ->
      request_json (POST "/check-notification" carol) <> Some bob)
  /\ Map_has
       (pendingNotifications
          (snd (fetch 30000 30200 (POST "/check-notification" carol) sample)))
       bob = true.
Proof.
  assert (H : pathname (POST "/check-notification" carol)
              = "/check-notification"%string ->
              request_json (POST "/check-notification" carol) <> Some bob)
    by (intros _; discriminate).
  split; [reflexivity |]. split; [exact H |].
  apply (notification_waits_for_its_poll 30000 30200
           (POST "/check-notification" carol) sample bob eq_refl H).
Defined.

(** X11.  Only the heartbeat route can bring the admin into the registry:
    a request to any other path leaves a registry without the admin without
    the admin. *)
Theorem admin_enters_only_by_heartbeat (now0 now1 : Z) (request : Request)
    (st : State)
    (H : (pathname request =? "/heartbeat")%string = false)
    (A : Map_has (activeUsers st) (JString ADMIN_USERNAME) = false) :
  Map_has (activeUsers (snd (fetch now0 now1 request st)))
    (JString ADMIN_USERNAME) = false.
Proof.
  assert (A0 : Map_has (activeUsers (cleanupInactiveUsers now0 st))
                 (JString ADMIN_USERNAME) = false).
  { unfold Map_has in *. rewrite cleanup_get_absent; [reflexivity |].
    now destruct (Map_get (activeUsers st) _). }
  assert (G0 : Map_get (activeUsers (cleanupInactiveUsers now0 st))
                 (JString ADMIN_USERNAME) = None).
  { unfold Map_has in A0. now destruct (Map_get _ _). }
  destruct (method request =? "OPTIONS")%string eqn:M.
  { unfold fetch. now rewrite M. }
  destruct (((pathname request =? "/login")
             || (pathname request =? "/heartbeat")
             || (pathname request =? "/logout"))%string) eqn:E.
  - destruct request as [m p b]. cbn [method pathname] in *.
    unfold fetch, dispatch. cbn [method pathname]. rewrite M. clear M.
    revert E H.
    on_path p ltac:(compare_strings; try discriminate; intros _ _);
      on_method m ltac:(compare_strings; try exact A0).
    + unfold login, request_json; cbn [body].
      destruct b as [| | u]; try exact A0.
      destruct u; try exact A0.
      destruct (_ || _); [exact A0 |].
      cbv zeta. unfold jsstring_eqb.
      destruct (list_eq_dec N.eq_dec (trim s) ADMIN_USERNAME) as [T | T];
        cbn [negb snd activeUsers]; [exact A0 |].
      unfold Map_has, register in *.
      rewrite Map_get_set_other by congruence. exact A0.
    + unfold logout; cbn [body snd].
      destruct b as [| | u]; try exact A0.
      destruct (truthy u); [| exact A0].
      cbn [activeUsers]. unfold remove, Map_delete, Map_has.
      now rewrite Map_get_filter_absent.
  - now rewrite fetch_registry_frame.
Qed.

Lemma admin_enters_only_by_heartbeat_witness :
  (pathname (POST "/login" (JString ADMIN_USERNAME)) =? "/heartbeat")%string
  = false
  /\ Map_has (activeUsers sample) (JString ADMIN_USERNAME) = false
  /\ Map_has
       (activeUsers
          (snd (fetch 15000 15200 (POST "/login" (JString ADMIN_USERNAME))
                  sample))) (JString ADMIN_USERNAME) = false.
Proof.
  split; [reflexivity |]. split; [reflexivity |].
  apply (admin_enters_only_by_heartbeat 15000 15200
           (POST "/login" (JString ADMIN_USERNAME)) sample);
    reflexivity.
Defined.

(** ** Status codes *)

Lemma login_test (s : jsstring) :
  negb (truthy (JString s)) || isEmpty (trim s) = blank (JString s).
Proof. rewrite isEmpty_trim. now destruct s. Qed.

Ltac open_route :=
  unfold login, heartbeat, logout, users, notify, notifyAll,
    checkNotification, health, request_json;
  cbn [body].

Ltac settle :=
  cbn [fst snd status payload jsonResponse handleOptions];
  try solve
    [ reflexivity
    | split; intros; try discriminate;
      intuition (try discriminate; try congruence) ].

(** X15.  A request that is not a preflight is answered 500 exactly when it
    reaches a route that parses a JSON body and the body is empty or does
    not parse; [/logout], which swallows such a body, never answers 500. *)
Theorem server_error_iff_unparsable_body (now0 now1 : Z) (request : Request)
    (st : State) (M : (method request =? "OPTIONS")%string = false) :
  status (fst (fetch now0 now1 request st)) = 500
  <-> reads_json request = true /\ request_json request = None.
Proof.
  destruct request as [m p b]. unfold reads_json. cbn [method pathname] in *.
  unfold fetch, dispatch. cbn [method pathname]. rewrite M. clear M.
  on_path p ltac:(compare_strings); on_method m ltac:(compare_strings).
  all: open_route; settle.
  all: destruct b as [| | u]; settle.
  all: try (destruct (truthy u); settle).
  all: try (destruct (Map_has _ _); settle).
  all: try (destruct (broadcastToAllPresent _ _ _); settle).
  all: try (rewrite takeFor_spec; destruct (Map_get _ _); settle).
  all: destruct u; settle.
  all: destruct (_ || _); settle.
Qed.

Lemma server_error_iff_unparsable_body_witness :
  (method {| method := "POST"; pathname := "/notify"; body := Malformed |}
   =? "OPTIONS")%string = false
  /\ status
       (fst (fetch 15000 15200
               {| method := "POST"; pathname := "/notify"; body := Malformed |}
               sample)) = 500.
Proof.
  split; [reflexivity |].
  apply (server_error_iff_unparsable_body 15000 15200
           {| method := "POST"; pathname := "/notify"; body := Malformed |}
           sample eq_refl).
  split; reflexivity.
Defined.

(** X16.  A request that is not a preflight is answered 400 exactly when it
    reaches a route that parses a JSON body and the parsed username fails
    the route's test. *)
Theorem bad_request_iff_rejected_username (now0 now1 : Z) (request : Request)
    (st : State) (M : (method request =? "OPTIONS")%string = false) :
  status (fst (fetch now0 now1 request st)) = 400
  <-> reads_json request && rejected request = true.
Proof.
  destruct request as [m p b]. unfold reads_json, rejected.
  cbn [method pathname] in *.
  unfold fetch, dispatch. cbn [method pathname]. rewrite M. clear M.
  on_path p ltac:(compare_strings); on_method m ltac:(compare_strings).
  all: open_route; settle.
  all: destruct b as [| | u]; settle.
  all: try (destruct (truthy u); settle).
  all: try (destruct (Map_has _ _); settle).
  all: try (destruct (broadcastToAllPresent _ _ _); settle).
  all: try (rewrite takeFor_spec; destruct (Map_get _ _); settle).
  all: destruct u; settle.
  all: rewrite login_test; unfold blank;
    destruct (forallb isWhiteSpace s); settle.
Qed.

Lemma bad_request_iff_rejected_username_witness :
  (method (POST "/heartbeat" (JNumber 0)) =? "OPTIONS")%string = false
  /\ status (fst (fetch 15000 15200 (POST "/heartbeat" (JNumber 0)) sample))
     = 400.
Proof.
  split; [reflexivity |].
  apply (bad_request_iff_rejected_username 15000 15200
           (POST "/heartbeat" (JNumber 0)) sample eq_refl).
  reflexivity.
Defined.

(** X17.  A request that is not a preflight is answered
    [{error: 'Not found'}] exactly when it reaches none of the eight
    routes, which includes a known path with the wrong method. *)
Theorem not_found_iff_unrouted (now0 now1 : Z) (request : Request)
    (st : State) (M : (method request =? "OPTIONS")%string = false) :
  fst (fetch now0 now1 request st) = jsonResponse (Error "Not found") 404
  <-> routed request = false.
Proof.
  destruct request as [m p b]. unfold routed. cbn [method pathname] in *.
  unfold fetch, dispatch. cbn [method pathname]. rewrite M. clear M.
  on_path p ltac:(compare_strings); on_method m ltac:(compare_strings).
  all: open_route; settle.
  all: destruct b as [| | u]; settle.
  all: try (destruct (truthy u); settle).
  all: try (destruct (Map_has _ _); settle).
  all: try (destruct (broadcastToAllPresent _ _ _); settle).
  all: try (rewrite takeFor_spec; destruct (Map_get _ _); settle).
  all: destruct u; settle.
  all: destruct (_ || _); settle.
Qed.

Lemma not_found_iff_unrouted_witness :
  (method (GET "/login") =? "OPTIONS")%string = false
  /\ fst (fetch 15000 15200 (GET "/login") sample) =
     jsonResponse (Error "Not found") 404.
Proof.
  split; [reflexivity |].
  apply (not_found_iff_unrouted 15000 15200 (GET "/login") sample eq_refl).
  reflexivity.
Defined.

(** X18.  Every answer has status 200, 400, 404 or 500, and a request that
    is not answered 200 changes nothing beyond the sweep that precedes its
    route. *)
Theorem failed_request_changes_nothing (now0 now1 : Z) (request : Request)
    (st : State) :
  let r := fetch now0 now1 request st in
  (status (fst r) = 200 \/ status (fst r) = 400
   \/ status (fst r) = 404 \/ status (fst r) = 500)
  /\ (status (fst r) <> 200 -> snd r = cleanupInactiveUsers now0 st).
Proof.
  cbv zeta. destruct request as [m p b].
  unfold fetch, dispatch. cbn [method pathname].
  on_method m ltac:(compare_strings);
    [cbn [fst snd status handleOptions]; split; [now left | congruence] | ..].
  all: on_path p ltac:(compare_strings).
  all: open_route.
  all: try (cbn [fst snd status jsonResponse]; split;
            [tauto | first [reflexivity | congruence]]).
  all: try (destruct b as [| | u]).
  all: try (cbn [fst snd status jsonResponse]; split;
            [tauto | first [reflexivity | congruence]]).
  all: try (destruct (truthy u); cbn [negb]).
  all: try (cbn [fst snd status jsonResponse]; split;
            [tauto | first [reflexivity | congruence]]).
  all: try (destruct (Map_has _ _)).
  all: try (destruct (broadcastToAllPresent _ _ _)).
  all: try (rewrite takeFor_spec; destruct (Map_get _ _)).
  all: try (cbn [fst snd status jsonResponse]; split;
            [tauto | first [reflexivity | congruence]]).
  all: destruct u.
  all: try (cbn [fst snd status jsonResponse]; split;
            [tauto | first [reflexivity | congruence]]).
  all: destruct (_ || _).
  all: cbn [fst snd status jsonResponse]; split;
    [tauto | first [reflexivity | congruence]].
Qed.

Lemma failed_request_changes_nothing_witness :
  status (fst (fetch 15000 15200 (POST "/notify" dave) sample)) <> 200
  /\ snd (fetch 15000 15200 (POST "/notify" dave) sample) =
     cleanupInactiveUsers 15000 sample.
Proof.
  assert (N : status (fst (fetch 15000 15200 (POST "/notify" dave) sample))
              <> 200) by discriminate.
  split; [exact N |].
  apply (proj2 (failed_request_changes_nothing 15000 15200
                  (POST "/notify" dave) sample) N).
Defined.

(** ** Login, heartbeat and poll together *)

Lemma login_then_sweep_get (a b c : Z) (s : jsstring) (st : State) :
  Map_wf (activeUsers st) ->
  blank (JString s) = false -> trim s <> ADMIN_USERNAME ->
  let st1 := snd (fetch a b (POST "/login" (JString s)) st) in
  Map_wf (activeUsers (cleanupInactiveUsers c st1))
  /\ Map_get (activeUsers (cleanupInactiveUsers c st1)) (JString (trim s)) =
     if c - b >? 10000 then None
     else Some {| username := JString (trim s); lastSeen := b;
                  loginTime := b |}.
Proof.
  intros WF B N. cbv zeta. simpl in B.
  rewrite fetch_login_accept by exact B. cbv zeta. unfold jsstring_eqb.
  destruct (list_eq_dec N.eq_dec (trim s) ADMIN_USERNAME); [contradiction |].
  cbn [snd].
  assert (W : Map_wf (register (trim s) b
                        (activeUsers (cleanupInactiveUsers a st)))).
  { unfold register. apply Map_wf_set. rewrite cleanup_is_sweep by exact WF.
    now apply Map_wf_filter. }
  rewrite cleanup_is_sweep by exact W. cbn [activeUsers]. split.
  - now apply Map_wf_filter.
  - rewrite sweep_get by exact W. unfold register.
    now rewrite Map_get_set_same.
Qed.

(** X19.  A heartbeat under the username a login returned continues the
    session when the sweep that precedes it runs within 10000 ms of the
    login: [loginTime] stays the login's and [lastSeen] becomes the
    heartbeat's.  Later than that the record is gone and the heartbeat
    starts a new session. *)
Theorem heartbeat_continues_login (a b c d : Z) (s : jsstring) (st : State)
    (WF : Map_wf (activeUsers st)) (B : blank (JString s) = false)
    (N : trim s <> ADMIN_USERNAME) :
  let u := JString (trim s) in
  let st1 := snd (fetch a b (POST "/login" (JString s)) st) in
  let st2 := snd (fetch c d (POST "/heartbeat" u) st1) in
  Map_get (activeUsers st2) u =
  Some {| username := u; lastSeen := d;
          loginTime := if c - b <=? 10000 then b else d |}.
Proof.
  cbv zeta.
  assert (T : truthy (JString (trim s)) = true).
  { apply truthy_trimmed. rewrite isEmpty_trim. exact B. }
  rewrite fetch_heartbeat by exact T. cbn [snd activeUsers].
  rewrite registerOrTouch_get_same.
  destruct (login_then_sweep_get a b c s st WF B N) as [_ G]. rewrite G.
  rewrite Z.gtb_ltb, Z.leb_antisym.
  now destruct (10000 <? c - b).
Qed.

Lemma heartbeat_continues_login_witness :
  Map_wf (activeUsers sample)
  /\ blank (JString (lit " erin ")) = false
  /\ trim (lit " erin ") <> ADMIN_USERNAME
  /\ Map_get
       (activeUsers
          (snd (fetch 20000 20100 (POST "/heartbeat" (JString (lit "erin")))
                  (snd (fetch 15000 15200
                          (POST "/login" (JString (lit " erin "))) sample)))))
       (JString (lit "erin")) =
     Some {| username := JString (lit "erin"); lastSeen := 20100;
             loginTime := 15200 |}.
Proof.
  assert (N : trim (lit " erin ") <> ADMIN_USERNAME) by discriminate.
  split; [exact sample_wf |]. split; [reflexivity |]. split; [exact N |].
  apply (heartbeat_continues_login 15000 15200 20000 20100 (lit " erin ")
           sample sample_wf eq_refl N).
Defined.

(** X20.  The heartbeat route does not trim: after a login with a username
    that has white space around it, a heartbeat with the same untrimmed
    string registers a second, distinct user and leaves the login's record
    with the [lastSeen] of the login. *)
Theorem heartbeat_does_not_trim (a b c d : Z) (s : jsstring) (st : State)
    (WF : Map_wf (activeUsers st)) (B : blank (JString s) = false)
    (N : trim s <> ADMIN_USERNAME) (S : trim s <> s) (L : c - b <= 10000) :
  let st1 := snd (fetch a b (POST "/login" (JString s)) st) in
  let st2 := snd (fetch c d (POST "/heartbeat" (JString s)) st1) in
  JString s <> JString (trim s)
  /\ isActive (activeUsers st2) (JString s) = true
  /\ Map_get (activeUsers st2) (JString (trim s)) =
     Some {| username := JString (trim s); lastSeen := b; loginTime := b |}.
Proof.
  cbv zeta.
  assert (D : JString s <> JString (trim s)) by congruence.
  assert (T : truthy (JString s) = true).
  { simpl in *. destruct s; [discriminate | reflexivity]. }
  rewrite fetch_heartbeat by exact T. cbn [snd activeUsers].
  split; [exact D |]. split.
  - unfold isActive, Map_has. rewrite registerOrTouch_get_same.
    now destruct (Map_get _ (JString s)).
  - rewrite registerOrTouch_get_other by congruence.
    destruct (login_then_sweep_get a b c s st WF B N) as [_ G]. rewrite G.
    destruct (c - b >? 10000) eqn:X; [| reflexivity].
    rewrite Z.gtb_ltb in X. apply Z.ltb_lt in X. lia.
Qed.

Lemma heartbeat_does_not_trim_witness :
  Map_wf (activeUsers sample)
  /\ blank (JString (lit "erin ")) = false
  /\ trim (lit "erin ") <> ADMIN_USERNAME
  /\ trim (lit "erin ") <> lit "erin "
  /\ 20000 - 15200 <= 10000
  /\ Map_keys
       (activeUsers
          (snd (fetch 20000 20100 (POST "/heartbeat" (JString (lit "erin ")))
                  (snd (fetch 15000 15200
                          (POST "/login" (JString (lit "erin "))) sample)))))
     = [JString (lit "erin"); JString (lit "erin ")]
  /\ isActive
       (activeUsers
          (snd (fetch 20000 20100 (POST "/heartbeat" (JString (lit "erin ")))
                  (snd (fetch 15000 15200
                          (POST "/login" (JString (lit "erin "))) sample)))))
       (JString (lit "erin ")) = true.
Proof.
  assert (N : trim (lit "erin ") <> ADMIN_USERNAME) by discriminate.
  assert (S : trim (lit "erin ") <> lit "erin ") by discriminate.
  assert (L : 20000 - 15200 <= 10000) by lia.
  split; [exact sample_wf |]. split; [reflexivity |].
  split; [exact N |]. split; [exact S |]. split; [exact L |].
  split; [reflexivity |].
  apply (heartbeat_does_not_trim 15000 15200 20000 20100 (lit "erin ") sample
           sample_wf eq_refl N S L).
Defined.

Lemma trimStart_fixed (s : jsstring) :
  match s with [] => True | c :: _ => isWhiteSpace c = false end ->
  trimStart s = s.
Proof. destruct s as [| c r]; simpl; [reflexivity |]. now intros ->. Qed.

Lemma trim_idempotent (s : jsstring) : trim (trim s) = trim s.
Proof.
  unfold trim at 1.
  rewrite (trimStart_fixed (trim s)) by apply trim_spec.
  unfold trim, trimEnd. rewrite rev_involutive.
  now rewrite (trimStart_fixed (trimStart _)) by apply trimStart_head.
Qed.

(** X21.  The username a login answers with is a fixed point of the login:
    sending the trimmed username gives the same answer and the same state as
    sending the original one. *)
Theorem login_username_is_stable (now0 now1 : Z) (s : jsstring) (st : State) :
  fetch now0 now1 (POST "/login" (JString (trim s))) st =
  fetch now0 now1 (POST "/login" (JString s)) st.
Proof.
  unfold fetch, dispatch, login.
  cbn [method pathname POST String.eqb Ascii.eqb Bool.eqb andb request_json
       body].
  rewrite !login_test. unfold blank. rewrite trim_idempotent.
  rewrite <- !isEmpty_trim, trim_idempotent. reflexivity.
Qed.

(** X22.  After a broadcast every user who was present polls the broadcast's
    notification once: the first [/check-notification] returns the
    ['sound'] record stamped with the broadcast's time, the second returns
    none. *)
Theorem broadcast_is_polled_once (a b c d e f : Z) (body0 : Body) (u : jsval)
    (st : State) (T : truthy u = true)
    (A : isActive (activeUsers (cleanupInactiveUsers a st)) u = true) :
  let st1 :=
    snd (fetch a b
           {| method := "POST"; pathname := "/notify-all"; body := body0 |}
           st) in
  let r1 := fetch c d (POST "/check-notification" u) st1 in
  let r2 := fetch e f (POST "/check-notification" u) (snd r1) in
  fst r1 =
  jsonResponse (HasNotification {| type := lit "sound"; timestamp := b |}) 200
  /\ fst r2 = jsonResponse NoNotification 200.
Proof.
  cbv zeta. rewrite fetch_notifyAll. cbv zeta. cbn [snd].
  rewrite !fetch_check by exact T. cbn [fst snd pendingNotifications].
  rewrite broadcast_get. unfold isActive in A. rewrite A.
  now rewrite Map_get_delete_same.
Qed.

Lemma broadcast_is_polled_once_witness :
  truthy carol = true
  /\ isActive (activeUsers (cleanupInactiveUsers 15000 sample)) carol = true
  /\ fst (fetch 40000 40100 (POST "/check-notification" carol)
            (snd (fetch 15000 15200
                    {| method := "POST"; pathname := "/notify-all";
                       body := Empty |} sample))) =
     jsonResponse
       (HasNotification {| type := lit "sound"; timestamp := 15200 |}) 200.
Proof.
  split; [reflexivity |]. split; [reflexivity |].
  apply (broadcast_is_polled_once 15000 15200 40000 40100 50000 50100 Empty
           carol sample eq_refl eq_refl).
Defined.

(** ** Logout *)

(** X23.  [/logout] answers 200 whatever its body.  With a truthy username
    it removes that user's record and no other; with an empty body, a body
    that does not parse, a falsy username or a username that is not present
    it changes nothing beyond the sweep. *)
Theorem logout_never_fails (now0 now1 : Z) (b : Body) (st : State) :
  let st0 := cleanupInactiveUsers now0 st in
  let r :=
    fetch now0 now1 {| method := "POST"; pathname := "/logout"; body := b |}
      st in
  fst r = jsonResponse Success 200
  /\ (forall u,
        b = Fields u -> truthy u = true ->
        isActive (activeUsers (snd r)) u = false
        /\ (forall k, k <> u ->
              Map_get (activeUsers (snd r)) k = Map_get (activeUsers st0) k))
  /\ (b = Empty \/ b = Malformed
      \/ (exists u, b = Fields u
                    /\ (truthy u = false
                        \/ isActive (activeUsers st0) u = false)) ->
      snd r = st0).
Proof.
  cbv zeta. rewrite fetch_logout. unfold logout. cbn [fst snd body].
  split; [reflexivity |]. split.
  - intros u -> T. rewrite T. cbn [activeUsers]. unfold remove. split.
    + unfold isActive, Map_has. now rewrite Map_get_delete_same.
    + intros k K. now apply Map_get_delete_other.
  - intros [-> | [-> | [u [-> [T | A]]]]]; try reflexivity.
    + now rewrite T.
    + destruct (truthy u); [| reflexivity].
      unfold remove. unfold isActive in A. rewrite (Map_delete_absent _ _ A).
      now destruct (cleanupInactiveUsers now0 st).
Qed.

Lemma logout_never_fails_witness :
  Fields dave = Fields dave
  /\ isActive (activeUsers (cleanupInactiveUsers 15000 sample)) dave = false
  /\ snd (fetch 15000 15200
            {| method := "POST"; pathname := "/logout"; body := Fields dave |}
            sample) = cleanupInactiveUsers 15000 sample.
Proof.
  split; [reflexivity |]. split; [reflexivity |].
  destruct (logout_never_fails 15000 15200 (Fields dave) sample)
    as (_ & _ & K).
  apply K. right. right. exists dave. split; [reflexivity |].
  right. reflexivity.
Defined.

(** ** Growth of the registry *)

Lemma Map_size_set {V : Type} (m : Map V) (k : jsval) (v : V) :
  (Map_size (Map_set m k v) <= S (Map_size m))%nat.
Proof.
  unfold Map_size. induction m as [| [k' v'] r IH]; simpl; [lia |].
  destruct (SameValueZero k' k); simpl; lia.
Qed.

Lemma Map_size_mutate {V : Type} (m : Map V) (k : jsval) (f : V -> V) :
  Map_size (Map_mutate m k f) = Map_size m.
Proof.
  unfold Map_size. induction m as [| [k' v'] r IH]; simpl; [reflexivity |].
  destruct (SameValueZero k' k); simpl; congruence.
Qed.

(** X24.  One request adds at most one user to the registry. *)
Theorem request_adds_at_most_one_user (now0 now1 : Z) (request : Request)
    (st : State) :
  (Map_size (activeUsers (snd (fetch now0 now1 request st)))
   <= S (Map_size (activeUsers st)))%nat.
Proof.
  pose proof (cleanup_size_le now0 st) as Sw.
  destruct (method request =? "OPTIONS")%string eqn:M.
  { unfold fetch. rewrite M. cbn [snd]. lia. }
  destruct (((pathname request =? "/login")
             || (pathname request =? "/heartbeat")
             || (pathname request =? "/logout"))%string) eqn:E.
  - destruct request as [m p b]. cbn [method pathname] in *.
    unfold fetch, dispatch. cbn [method pathname]. rewrite M. clear M.
    revert E.
    on_path p ltac:(compare_strings; try discriminate; intros _);
      on_method m ltac:(compare_strings; cbn [snd]; try lia).
    + unfold login, request_json; cbn [body].
      destruct b as [| | u]; cbn [snd]; try lia.
      destruct u; cbn [snd]; try lia.
      destruct (_ || _); cbn [snd]; [lia |].
      cbv zeta. destruct (jsstring_eqb _ _); cbn [negb snd activeUsers];
        [lia |].
      unfold register.
      pose proof (Map_size_set (activeUsers (cleanupInactiveUsers now0 st))
                    (JString (trim s))
                    {| username := JString (trim s); lastSeen := now1;
                       loginTime := now1 |}).
      lia.
    + unfold heartbeat, request_json; cbn [body].
      destruct b as [| | u]; cbn [snd]; try lia.
      destruct (truthy u); cbn [negb snd activeUsers]; [| lia].
      unfold registerOrTouch. destruct (Map_has _ u).
      * rewrite Map_size_mutate. lia.
      * pose proof (Map_size_set (activeUsers (cleanupInactiveUsers now0 st))
                      u {| username := u; lastSeen := now1;
                           loginTime := now1 |}).
        lia.
    + unfold logout; cbn [body snd].
      destruct b as [| | u]; try lia.
      destruct (truthy u); cbn [activeUsers]; [| lia].
      unfold remove, Map_delete, Map_size in *.
      pose proof (filter_length_le
                    (fun e : jsval * User => negb (SameValueZero (fst e) u))
                    (activeUsers (cleanupInactiveUsers now0 st))).
      lia.
  - rewrite fetch_registry_frame by assumption. lia.
Qed.
